(** * Axis layout and tick generation of the plt package (axis.go)

    A shallow embedding of [plt/axis.go] and the properties its
    specification states about it.

    The program computes in [float64].  The code is embedded once, over
    an interface [Num] of the arithmetic it uses, and read at two
    instances:

    - [float] (Rocq's primitive binary64 numbers): the program itself,
      with IEEE 754 rounding to nearest even, signed zeros, infinities
      and NaN.  Each operation rounds on its own, as Go's compiler has it
      where it does not fuse a multiplication with an addition;
    - [Q] (exact rationals): the same code with every operation exact,
      the reading under which the algebraic statements of the
      specification hold.

    A statement about what the program returns is a statement about the
    [float] instance; a statement about the [Q] instance says so.

    Go's [==], [<] and [<=] on [float64] are [PrimFloat.eqb], [ltb] and
    [leb]: NaN is not equal to itself, and the two zeros are equal. *)

From Stdlib Require Import ZArith List String Ascii Bool Lia DecimalString.
From Stdlib Require Import QArith Qfield Lqa.
From Stdlib Require Import Floats.
Import ListNotations.

Set Warnings "-inexact-float".
Close Scope Q_scope.
Local Open Scope string_scope.

(** ** The arithmetic of the program *)

(** The operations of [float64] that axis.go uses: the four arithmetic
    operators, unary minus, the comparisons, integer literals and
    [math.Pi]. *)
Class Num (F : Type) : Type := {
  fadd : F -> F -> F;
  fsub : F -> F -> F;
  fmul : F -> F -> F;
  fdiv : F -> F -> F;
  fneg : F -> F;
  feqb : F -> F -> bool;
  fltb : F -> F -> bool;
  fleb : F -> F -> bool;
  lit : Z -> F;
  math_Pi : F
}.

Declare Scope num_scope.
Delimit Scope num_scope with num.
Infix "+" := fadd : num_scope.
Infix "-" := fsub : num_scope.
Infix "*" := fmul : num_scope.
Infix "/" := fdiv : num_scope.
Notation "- x" := (fneg x) : num_scope.
Notation "x == y" := (feqb x y) (at level 70, no associativity) : num_scope.
Notation "x <? y" := (fltb x y) (at level 70, no associativity) : num_scope.
Notation "x >? y" := (fltb y x) (at level 70, no associativity) : num_scope.
Notation "x <=? y" := (fleb x y) (at level 70, no associativity) : num_scope.

(** An integer literal as a [float64]: exact for the literals of the
    program (all far below 2^53). *)
Definition float_of_Z (z : Z) : float :=
  match z with
  | Z0 => PrimFloat.zero
  | Zpos p => PrimFloat.of_uint63 (Uint63.of_Z (Zpos p))
  | Zneg p => PrimFloat.opp (PrimFloat.of_uint63 (Uint63.of_Z (Zpos p)))
  end.

(** [float64]: the arithmetic the program runs on. *)
#[export] Instance float64 : Num float := {
  fadd := PrimFloat.add;
  fsub := PrimFloat.sub;
  fmul := PrimFloat.mul;
  fdiv := PrimFloat.div;
  fneg := PrimFloat.opp;
  feqb := PrimFloat.eqb;
  fltb := PrimFloat.ltb;
  fleb := PrimFloat.leb;
  lit := float_of_Z;
  math_Pi := 0x1.921fb54442d18p+1%float
}.

(** Exact arithmetic.  [math_Pi] is the rational value of the [float64]
    constant, so that both instances start from the same inputs. *)
#[export] Instance rational : Num Q := {
  fadd := Qplus;
  fsub := Qminus;
  fmul := Qmult;
  fdiv := Qdiv;
  fneg := Qopp;
  feqb := Qeq_bool;
  fltb := fun x y => negb (Qle_bool y x);
  fleb := Qle_bool;
  lit := inject_Z;
  math_Pi := 884279719003555 # 281474976710656
}.

(** ** Collaborators of axis.go

    The types below are declared in other files of the package (or in
    [vecgfx]); axis.go only reads the fields and calls the methods listed
    here. *)

(** Modelled from the spec: [vecgfx.PtInch], the number of points in an
    inch (72), which converts font metrics to inches. *)
Definition PtInch {F : Type} {N : Num F} : F := lit 72.

(** Modelled from the spec: [Point], a pair of drawing coordinates. *)
Module Point.
Record t (F : Type) : Type := mk { X : F; Y : F }.
Arguments mk {F}.
Arguments X {F}.
Arguments Y {F}.
End Point.

(** Modelled from the spec: the result of [Font.Extents()], in points. *)
Module FontExtents.
Record t (F : Type) : Type := mk { Ascent : F; Descent : F; Height : F }.
Arguments mk {F}.
Arguments Ascent {F}.
Arguments Descent {F}.
Arguments Height {F}.
End FontExtents.

(** Modelled from the spec: a font handle, seen through the two queries
    axis.go makes: [Extents()] and [Width(string)], both in points. *)
Module Font.
Record t (F : Type) : Type := mk { Extents : FontExtents.t F; Width : string -> F }.
Arguments mk {F}.
Arguments Extents {F}.
Arguments Width {F}.
End Font.

(** [color.RGBA] of the Go standard library. *)
Module Color.
Record RGBA : Type := mk { R : N; G : N; B : N; A : N }.
End Color.

(** Modelled from the spec: [TextStyle], a colour and a font. *)
Module TextStyle.
Record t (F : Type) : Type := mk { Color : Color.RGBA; Font : Font.t F }.
Arguments mk {F}.
Arguments Color {F}.
Arguments Font {F}.
End TextStyle.

(** Modelled from the spec: [LineStyle], a colour and a width in inches. *)
Module LineStyle.
Record t (F : Type) : Type := mk { Color : Color.RGBA; Width : F }.
Arguments mk {F}.
Arguments Color {F}.
Arguments Width {F}.
End LineStyle.

(** ** Ticks (axis.go, lines 203-223) *)

Module Tick.

(** [type Tick struct { Value float64; Label string }] *)
Record t (F : Type) : Type := mk { Value : F; Label : string }.
Arguments mk {F}.
Arguments Value {F}.
Arguments Label {F}.

Section Methods.
Context {F : Type} {N : Num F}.
Local Open Scope num_scope.

(** [func (t Tick) minor() bool { return t.Label == "" }] *)
Definition minor (t : Tick.t F) : bool := String.eqb (Label t) "".

(** [func (t Tick) lengthOffset(len float64) float64] *)
Definition lengthOffset (t : Tick.t F) (len : F) : F :=
  if minor t then len / lit 2 else lit 0.

End Methods.
End Tick.

(** ** Tick markers (axis.go, lines 196-201 and 272-293) *)

(** [type TickMarker interface { Marks(min, max float64) []Tick }]: an
    interface value is the method it carries. *)
Module TickMarker.
Record t (F : Type) : Type := mk { Marks : F -> F -> list (Tick.t F) }.
Arguments mk {F}.
Arguments Marks {F}.
End TickMarker.

Module DefaultTicks.
Section Methods.
Context {F : Type} {N : Num F}.
Local Open Scope num_scope.

(** [fmt.Sprintf("%g", x)] of the Go standard library. *)
Variable Sprintf_g : F -> string.

(** [func (_ DefaultTicks) Marks(min, max float64) []Tick].  A field left
    out of a composite literal has its zero value: the label of the
    second and fourth tick is the empty string. *)
Definition Marks (min max : F) : list (Tick.t F) :=
  [ {| Tick.Value := min; Tick.Label := Sprintf_g min |};
    {| Tick.Value := min + (max - min) / lit 4; Tick.Label := "" |};
    {| Tick.Value := min + (max - min) / lit 2;
       Tick.Label := Sprintf_g (min + (max - min) / lit 2) |};
    {| Tick.Value := min + lit 3 * (max - min) / lit 4; Tick.Label := "" |};
    {| Tick.Value := max; Tick.Label := Sprintf_g max |} ].

(** [DefaultTicks(struct{}{})] as a [TickMarker]. *)
Definition marker : TickMarker.t F := {| TickMarker.Marks := Marks |}.

End Methods.
End DefaultTicks.

Module ConstantTicks.
Section Methods.
Context {F : Type}.

(** [type ConstantTicks []Tick] *)
Definition t : Type := list (Tick.t F).

(** [func (tks ConstantTicks) Marks(min, max float64) []Tick { return tks }] *)
Definition Marks (tks : t) (min max : F) : list (Tick.t F) := tks.

(** [ConstantTicks(tks)] as a [TickMarker]. *)
Definition marker (tks : t) : TickMarker.t F := {| TickMarker.Marks := Marks tks |}.

End Methods.
End ConstantTicks.

(** ** Tick marks (axis.go, lines 177-194 and 245-270) *)

Module TickMarks.

(** [type TickMarks struct { LabelStyle; MarkStyle; Length; TickMarker }] *)
Record t (F : Type) : Type := mk {
  LabelStyle : TextStyle.t F;
  MarkStyle : LineStyle.t F;
  Length : F;
  TickMarker : TickMarker.t F
}.
Arguments mk {F}.
Arguments LabelStyle {F}.
Arguments MarkStyle {F}.
Arguments Length {F}.
Arguments TickMarker {F}.

Section Methods.
Context {F : Type} {N : Num F}.
Local Open Scope num_scope.

(** The method [Marks] promoted from the embedded [TickMarker]. *)
Definition Marks (tick : t F) (min max : F) : list (Tick.t F) :=
  TickMarker.Marks (TickMarker tick) min max.

(** [func (tick TickMarks) labelHeight(ticks []Tick) float64]: the loop
    returns at the first tick that is not minor. *)
Fixpoint labelHeight (tick : t F) (ticks : list (Tick.t F)) : F :=
  match ticks with
  | [] => lit 0
  | t :: ticks' =>
      if Tick.minor t then labelHeight tick ticks'
      else
        let font := TextStyle.Font (LabelStyle tick) in
        FontExtents.Ascent (Font.Extents font) / PtInch
  end.

(** One iteration of the loop of [labelWidth]. *)
Definition widen (tick : t F) (maxWidth : F) (t : Tick.t F) : F :=
  if Tick.minor t then maxWidth
  else
    let w := Font.Width (TextStyle.Font (LabelStyle tick)) (Tick.Label t) in
    if w >? maxWidth then w else maxWidth.

(** [func (tick TickMarks) labelWidth(ticks []Tick) float64] *)
Definition labelWidth (tick : t F) (ticks : list (Tick.t F)) : F :=
  let maxWidth := fold_left (widen tick) ticks (lit 0) in
  maxWidth / PtInch.

End Methods.
End TickMarks.

(** ** The drawing area

    Modelled from the spec: [DrawArea], a rectangle with its [Min] corner,
    the corners returned by [Max()] and [Center()], the scale [DPI()], and
    the drawing operations of the backend.  A drawing routine is read as
    the sequence of backend calls it makes, in order. *)

Module DrawArea.

Inductive Op (F : Type) : Type :=
| SetTextStyle (sty : TextStyle.t F)
| SetLineStyle (sty : LineStyle.t F)
| Text (x y xalign yalign : F) (str : string)
| Line (pts : list (Point.t F))
| Push
| Pop
| Rotate (radians : F).
Arguments SetTextStyle {F}.
Arguments SetLineStyle {F}.
Arguments Text {F}.
Arguments Line {F}.
Arguments Push {F}.
Arguments Pop {F}.
Arguments Rotate {F}.

Record t (F : Type) : Type := mk {
  Min : Point.t F;
  Max : Point.t F;
  Center : Point.t F;
  DPI : F
}.
Arguments mk {F}.
Arguments Min {F}.
Arguments Max {F}.
Arguments Center {F}.
Arguments DPI {F}.

End DrawArea.

(** A drawing computation: it reads and extends the calls made so far and
    returns a value (the routines of axis.go carry a cursor). *)
Definition Draw (F A : Type) : Type := list (DrawArea.Op F) -> A * list (DrawArea.Op F).

Definition ret {F A : Type} (x : A) : Draw F A := fun calls => (x, calls).

Definition bind {F A B : Type} (m : Draw F A) (k : A -> Draw F B) : Draw F B :=
  fun calls => let (x, calls') := m calls in k x calls'.

(** One call of a method of the drawing area. *)
Definition call {F : Type} (op : DrawArea.Op F) : Draw F unit :=
  fun calls => (tt, (calls ++ [op])%list).

(** [for _, t := range ts { body }] *)
Fixpoint range {F A : Type} (ts : list A) (body : A -> Draw F unit) : Draw F unit :=
  match ts with
  | [] => ret tt
  | t :: ts' => bind (body t) (fun _ => range ts' body)
  end.

(** The calls a drawing routine makes on a fresh drawing area. *)
Definition calls_of {F A : Type} (m : Draw F A) : list (DrawArea.Op F) := snd (m []).

Declare Scope draw_scope.
Delimit Scope draw_scope with draw.
Notation "x <- m ;; k" := (bind m (fun x => k))
  (at level 61, m at next level, right associativity) : draw_scope.
Notation "m ;; k" := (bind m (fun _ => k))
  (at level 61, right associativity) : draw_scope.

(** ** The axis (axis.go, lines 14-175) *)

Module Axis.

(** [type Axis struct { Min, Max; Label; LabelStyle; AxisStyle; Padding; Ticks }] *)
Record t (F : Type) : Type := mk {
  Min : F;
  Max : F;
  Label : string;
  LabelStyle : TextStyle.t F;
  AxisStyle : LineStyle.t F;
  Padding : F;
  Ticks : TickMarks.t F
}.
Arguments mk {F}.
Arguments Min {F}.
Arguments Max {F}.
Arguments Label {F}.
Arguments LabelStyle {F}.
Arguments AxisStyle {F}.
Arguments Padding {F}.
Arguments Ticks {F}.

Section Methods.
Context {F : Type} {N : Num F}.
Local Open Scope num_scope.
Local Open Scope draw_scope.

(** [func (a *Axis) X(da *DrawArea, x float64) float64] *)
Definition X (a : t F) (da : DrawArea.t F) (x : F) : F :=
  let p := (x - Min a) / (Max a - Min a) in
  Point.X (DrawArea.Min da) + p * (Point.X (DrawArea.Max da) - Point.X (DrawArea.Min da)).

(** [func (a *Axis) Y(da *DrawArea, y float64) float64] *)
Definition Y (a : t F) (da : DrawArea.t F) (y : F) : F :=
  let p := (y - Min a) / (Max a - Min a) in
  Point.Y (DrawArea.Min da) + p * (Point.Y (DrawArea.Max da) - Point.Y (DrawArea.Min da)).

(** [a.LabelStyle.Font.Extents()] *)
Definition labelExtents (a : t F) : FontExtents.t F :=
  Font.Extents (TextStyle.Font (LabelStyle a)).

(** [func (a *Axis) height() (h float64)]: the named result starts at its
    zero value and each [h += e] is [h = h + e]. *)
Definition height (a : t F) : F :=
  let h := lit 0 in
  let h :=
    if negb (String.eqb (Label a) "")
    then h + FontExtents.Height (labelExtents a) / PtInch
    else h in
  let marks := TickMarks.Marks (Ticks a) (Min a) (Max a) in
  let h :=
    if (0 <? List.length marks)%nat
    then h + (TickMarks.Length (Ticks a) + TickMarks.labelHeight (Ticks a) marks)
    else h in
  let h := h + LineStyle.Width (AxisStyle a) / lit 2 in
  let h := h + Padding a in
  h.

(** [func (a *Axis) drawHoriz(da *DrawArea)]; the literal [-0.5] is
    [-(1/2)], which is exact. *)
Definition drawHoriz (a : t F) (da : DrawArea.t F) : Draw F unit :=
  let y := Point.Y (DrawArea.Min da) in
  y <- (if negb (String.eqb (Label a) "") then
          call (DrawArea.SetTextStyle (LabelStyle a)) ;;
          let y := y + - (FontExtents.Descent (labelExtents a) / PtInch * DrawArea.DPI da) in
          call (DrawArea.Text (Point.X (DrawArea.Center da)) y (- (lit 1 / lit 2)) (lit 0) (Label a)) ;;
          ret (y + FontExtents.Ascent (labelExtents a) / PtInch * DrawArea.DPI da)
        else ret y) ;;
  let marks := TickMarks.Marks (Ticks a) (Min a) (Max a) in
  y <- (if (0 <? List.length marks)%nat then
          call (DrawArea.SetLineStyle (TickMarks.MarkStyle (Ticks a))) ;;
          call (DrawArea.SetTextStyle (TickMarks.LabelStyle (Ticks a))) ;;
          range marks (fun t =>
            if Tick.minor t then ret tt
            else call (DrawArea.Text (X a da (Tick.Value t)) y (- (lit 1 / lit 2)) (lit 0) (Tick.Label t))) ;;
          let y := y + TickMarks.labelHeight (Ticks a) marks * DrawArea.DPI da in
          let len := TickMarks.Length (Ticks a) * DrawArea.DPI da in
          range marks (fun t =>
            let x := X a da (Tick.Value t) in
            call (DrawArea.Line [ {| Point.X := x; Point.Y := y + Tick.lengthOffset t len |};
                                  {| Point.X := x; Point.Y := y + len |} ])) ;;
          ret (y + len)
        else ret y) ;;
  call (DrawArea.SetLineStyle (AxisStyle a)) ;;
  call (DrawArea.Line [ {| Point.X := Point.X (DrawArea.Min da); Point.Y := y |};
                        {| Point.X := Point.X (DrawArea.Max da); Point.Y := y |} ]).

(** [func (a *Axis) width() (w float64)] *)
Definition width (a : t F) : F :=
  let w := lit 0 in
  let w :=
    if negb (String.eqb (Label a) "")
    then w + FontExtents.Ascent (labelExtents a) / PtInch
    else w in
  let marks := TickMarks.Marks (Ticks a) (Min a) (Max a) in
  let w :=
    if (0 <? List.length marks)%nat then
      let w :=
        let lwidth := TickMarks.labelWidth (Ticks a) marks in
        if lwidth >? lit 0 then
          let w := w + lwidth in
          w + Font.Width (TextStyle.Font (TickMarks.LabelStyle (Ticks a))) " " / PtInch
        else w in
      w + TickMarks.Length (Ticks a)
    else w in
  let w := w + LineStyle.Width (AxisStyle a) / lit 2 in
  let w := w + Padding a in
  w.

(** [func (a *Axis) drawVert(da *DrawArea)]; the literal [-1] is exact. *)
Definition drawVert (a : t F) (da : DrawArea.t F) : Draw F unit :=
  let x := Point.X (DrawArea.Min da) in
  x <- (if negb (String.eqb (Label a) "") then
          let x := x + FontExtents.Ascent (labelExtents a) / PtInch * DrawArea.DPI da in
          call (DrawArea.SetTextStyle (LabelStyle a)) ;;
          call DrawArea.Push ;;
          call (DrawArea.Rotate (math_Pi / lit 2)) ;;
          call (DrawArea.Text (Point.Y (DrawArea.Center da)) (- x) (- (lit 1 / lit 2)) (lit 0) (Label a)) ;;
          call DrawArea.Pop ;;
          ret (x + - FontExtents.Descent (labelExtents a) / PtInch * DrawArea.DPI da)
        else ret x) ;;
  let marks := TickMarks.Marks (Ticks a) (Min a) (Max a) in
  x <- (if (0 <? List.length marks)%nat then
          call (DrawArea.SetLineStyle (TickMarks.MarkStyle (Ticks a))) ;;
          call (DrawArea.SetTextStyle (TickMarks.LabelStyle (Ticks a))) ;;
          let x :=
            let lwidth := TickMarks.labelWidth (Ticks a) marks in
            if lwidth >? lit 0 then
              let x := x + lwidth * DrawArea.DPI da in
              x + Font.Width (TextStyle.Font (TickMarks.LabelStyle (Ticks a))) " " / PtInch * DrawArea.DPI da
            else x in
          range marks (fun t =>
            if Tick.minor t then ret tt
            else call (DrawArea.Text x (Y a da (Tick.Value t)) (lit (-1)) (- (lit 1 / lit 2))
                         (Tick.Label t ++ " ")%string)) ;;
          let len := TickMarks.Length (Ticks a) * DrawArea.DPI da in
          range marks (fun t =>
            let y := Y a da (Tick.Value t) in
            call (DrawArea.Line [ {| Point.X := x + Tick.lengthOffset t len; Point.Y := y |};
                                  {| Point.X := x + len; Point.Y := y |} ])) ;;
          ret (x + len)
        else ret x) ;;
  call (DrawArea.SetLineStyle (AxisStyle a)) ;;
  call (DrawArea.Line [ {| Point.X := x; Point.Y := Point.Y (DrawArea.Min da) |};
                        {| Point.X := x; Point.Y := Point.Y (DrawArea.Max da) |} ]).

End Methods.
End Axis.

(** ** Constructors (axis.go, lines 10-12, 35-56 and 225-244) *)

(** A call of a Go function either returns its result or panics with a
    value; a panic passes through every caller that does not recover. *)
Inductive outcome (E A : Type) : Type :=
| Returns (x : A)
| Panics (e : E).
Arguments Returns {E A}.
Arguments Panics {E A}.

Definition and_then {E A B : Type} (m : outcome E A) (k : A -> outcome E B) : outcome E B :=
  match m with
  | Returns x => k x
  | Panics e => Panics e
  end.

Definition DefaultFont : string := "Times-Roman".

Section Constructors.

(** Go's [error] values, and [MakeFont(name, size) (Font, error)] of the
    package: the font and [nil] ([None]), or an error. *)
Variable error : Type.
Variable MakeFont : string -> float -> Font.t float * option error.

(** The package's colour [Black]. *)
Variable Black : Color.RGBA.

Variable Sprintf_g : float -> string.

Local Open Scope num_scope.

(** [func MakeTickMarks() TickMarks] *)
Definition MakeTickMarks : outcome error (TickMarks.t float) :=
  let (labelFont, err) := MakeFont DefaultFont (lit 10) in
  match err with
  | Some e => Panics e
  | None =>
      Returns {|
        TickMarks.LabelStyle :=
          {| TextStyle.Color := Color.mk 0 0 0 255; TextStyle.Font := labelFont |};
        TickMarks.MarkStyle :=
          {| LineStyle.Color := Color.mk 0 0 0 255; LineStyle.Width := lit 1 / lit 64 |};
        TickMarks.Length := lit 1 / lit 10;
        TickMarks.TickMarker := DefaultTicks.marker Sprintf_g
      |}
  end.

(** [func MakeAxis() Axis]: the composite literal calls [MakeTickMarks()]
    after the label font was made. *)
Definition MakeAxis : outcome error (Axis.t float) :=
  let (labelFont, err) := MakeFont DefaultFont (lit 12) in
  match err with
  | Some e => Panics e
  | None =>
      and_then MakeTickMarks (fun ticks =>
        Returns {|
          Axis.Min := PrimFloat.infinity;
          Axis.Max := PrimFloat.neg_infinity;
          Axis.Label := "";
          Axis.LabelStyle := {| TextStyle.Color := Black; TextStyle.Font := labelFont |};
          Axis.AxisStyle := {| LineStyle.Color := Black; LineStyle.Width := lit 1 / lit 64 |};
          Axis.Padding := lit 1 / lit 8;
          Axis.Ticks := ticks
        |})
  end.

End Constructors.

(** * Vocabulary of the specification

    The formulas of the specification, written as it words them, to be
    compared with the code. *)

Section Specification.
Context {F : Type} {N : Num F}.
Local Open Scope num_scope.

(** "The sum of" a list of terms: accumulated from zero, left to right. *)
Definition sum_of (terms : list F) : F := fold_left fadd terms (lit 0).

(** A term that is part of a sum only under a condition. *)
Definition term_if (c : bool) (x : F) : list F := if c then [x] else [].

(** Several terms that are part of a sum only under a condition. *)
Definition terms_if (c : bool) (xs : list F) : list F := if c then xs else [].

Definition has_label (a : Axis.t F) : bool := negb (String.eqb (Axis.Label a) "").

Definition nonempty {A : Type} (l : list A) : bool :=
  match l with
  | [] => false
  | _ :: _ => true
  end.

(** [marks = a.Ticks.Marks(a.Min, a.Max)] *)
Definition marks_of (a : Axis.t F) : list (Tick.t F) :=
  TickMarks.Marks (Axis.Ticks a) (Axis.Min a) (Axis.Max a).

(** The width of one space character in the tick-label font, in inches. *)
Definition space_width (a : Axis.t F) : F :=
  Font.Width (TextStyle.Font (TickMarks.LabelStyle (Axis.Ticks a))) " " / PtInch.

(** [height()] as the specification words it: the label term is the
    font's ascent, and a term that does not apply is 0. *)
Definition height_as_specified (a : Axis.t F) : F :=
  sum_of [ if has_label a then FontExtents.Ascent (Axis.labelExtents a) / PtInch else lit 0;
           if nonempty (marks_of a)
           then TickMarks.Length (Axis.Ticks a) + TickMarks.labelHeight (Axis.Ticks a) (marks_of a)
           else lit 0;
           LineStyle.Width (Axis.AxisStyle a) / lit 2;
           Axis.Padding a ].

(** [height()] with the label term the code has: the font's height. *)
Definition height_terms (a : Axis.t F) : list F :=
  term_if (has_label a) (FontExtents.Height (Axis.labelExtents a) / PtInch)
  ++ term_if (nonempty (marks_of a))
       (TickMarks.Length (Axis.Ticks a) + TickMarks.labelHeight (Axis.Ticks a) (marks_of a))
  ++ [LineStyle.Width (Axis.AxisStyle a) / lit 2; Axis.Padding a].

(** The terms of [width()] after the label term: label width and space
    (only when the label width is positive) and tick length, when there
    are ticks; then half the line width and the padding. *)
Definition width_tail (a : Axis.t F) : list F :=
  terms_if (nonempty (marks_of a))
    (terms_if (TickMarks.labelWidth (Axis.Ticks a) (marks_of a) >? lit 0)
       [TickMarks.labelWidth (Axis.Ticks a) (marks_of a); space_width a]
     ++ [TickMarks.Length (Axis.Ticks a)])
  ++ [LineStyle.Width (Axis.AxisStyle a) / lit 2; Axis.Padding a].

(** [width()] as the specification words it: the label term is the
    font's height. *)
Definition width_as_specified (a : Axis.t F) : F :=
  sum_of (term_if (has_label a) (FontExtents.Height (Axis.labelExtents a) / PtInch)
          ++ width_tail a).

(** [width()] with the label term the code has: the font's ascent. *)
Definition width_terms (a : Axis.t F) : list F :=
  term_if (has_label a) (FontExtents.Ascent (Axis.labelExtents a) / PtInch) ++ width_tail a.

(** The space an axis reserves before its line: what [height()] (or
    [width()]) returns without half the line width and the padding, in
    drawing units. *)
Definition reserved (size : F) (a : Axis.t F) (da : DrawArea.t F) : F :=
  (size - LineStyle.Width (Axis.AxisStyle a) / lit 2 - Axis.Padding a) * DrawArea.DPI da.

(** The major ticks of a list: those that are not minor. *)
Definition major (ticks : list (Tick.t F)) : list (Tick.t F) :=
  filter (fun t => negb (Tick.minor t)) ticks.

(** The measured width, in points, of a tick's label in the label font. *)
Definition label_points (tick : TickMarks.t F) (t : Tick.t F) : F :=
  Font.Width (TextStyle.Font (TickMarks.LabelStyle tick)) (Tick.Label t).




(** A cursor that starts at [start] and advances by each term in turn. *)
Definition advance (start : F) (terms : list F) : F := fold_left fadd terms start.

(** The last call a drawing routine made, if it made any. *)
Definition final_call (calls : list (DrawArea.Op F)) : option (DrawArea.Op F) :=
  last (map Some calls) None.

(** The advances of the cursor of [drawHoriz]: past the axis label
    (descent, then ascent), then past the tick labels and the tick marks. *)
Definition horiz_advances (a : Axis.t F) (da : DrawArea.t F) : list F :=
  terms_if (has_label a)
    [ - (FontExtents.Descent (Axis.labelExtents a) / PtInch * DrawArea.DPI da);
      FontExtents.Ascent (Axis.labelExtents a) / PtInch * DrawArea.DPI da ]
  ++ terms_if (nonempty (marks_of a))
       [ TickMarks.labelHeight (Axis.Ticks a) (marks_of a) * DrawArea.DPI da;
         TickMarks.Length (Axis.Ticks a) * DrawArea.DPI da ].

(** The advances of the cursor of [drawVert]: past the axis label (ascent,
    then descent), then past the tick labels with their space (when the
    label width is positive) and the tick marks. *)
Definition vert_advances (a : Axis.t F) (da : DrawArea.t F) : list F :=
  terms_if (has_label a)
    [ FontExtents.Ascent (Axis.labelExtents a) / PtInch * DrawArea.DPI da;
      - FontExtents.Descent (Axis.labelExtents a) / PtInch * DrawArea.DPI da ]
  ++ terms_if (nonempty (marks_of a))
       (terms_if (TickMarks.labelWidth (Axis.Ticks a) (marks_of a) >? lit 0)
          [ TickMarks.labelWidth (Axis.Ticks a) (marks_of a) * DrawArea.DPI da;
            Font.Width (TextStyle.Font (TickMarks.LabelStyle (Axis.Ticks a))) " " / PtInch
            * DrawArea.DPI da ]
        ++ [ TickMarks.Length (Axis.Ticks a) * DrawArea.DPI da ]).

(** A line from [(x0, y0)] to [(x1, y1)]. *)
Definition line (x0 y0 x1 y1 : F) : DrawArea.Op F :=
  DrawArea.Line [ {| Point.X := x0; Point.Y := y0 |}; {| Point.X := x1; Point.Y := y1 |} ].

End Specification.

(** * Shapes of binary64 numbers

    The specification of the primitive [float] operations is stated on
    [spec_float], the unpacked form given by [Prim2SF]. *)

(** The shape of a number that is neither NaN nor infinite. *)
Definition SFfinite (x : spec_float) : bool :=
  match x with
  | S754_zero _ | S754_finite _ _ _ => true
  | S754_infinity _ | S754_nan => false
  end.

Definition SFis_zero (x : spec_float) : bool :=
  match x with
  | S754_zero _ => true
  | _ => false
  end.

Definition SFis_nan (x : spec_float) : bool :=
  match x with
  | S754_nan => true
  | _ => false
  end.


(** The larger of two numbers the way the loop of [labelWidth] takes it:
    the new width replaces the running maximum when it is above it. *)
Definition wider (acc w : float) : float := if PrimFloat.ltb acc w then w else acc.

(** * Sample inputs

    Concrete fonts, axes and drawing areas on which the definitions are
    evaluated. *)

Section Samples.
Context {F : Type} {N : Num F}.
Local Open Scope num_scope.

(** A font of the given size in points: ascent 3/4 and descent -1/4 of
    the size (the descent is negative, as the draw routines expect),
    height the whole size, and every character half the size wide. *)
Definition sampleFont (size : F) : Font.t F :=
  {| Font.Extents :=
       {| FontExtents.Ascent := lit 3 * size / lit 4;
          FontExtents.Descent := - (size / lit 4);
          FontExtents.Height := size |};
     Font.Width := fun s => lit (Z.of_nat (String.length s)) * size / lit 2 |}.

Definition black : Color.RGBA := Color.mk 0 0 0 255.

(** Tick marks in the default style around a given marker. *)
Definition sampleTickMarks (marker : TickMarker.t F) : TickMarks.t F :=
  {| TickMarks.LabelStyle := {| TextStyle.Color := black; TextStyle.Font := sampleFont (lit 10) |};
     TickMarks.MarkStyle := {| LineStyle.Color := black; LineStyle.Width := lit 1 / lit 64 |};
     TickMarks.Length := lit 1 / lit 10;
     TickMarks.TickMarker := marker |}.

(** An axis in the default style with the given range, label and marker. *)
Definition sampleAxis (min max : F) (label : string) (marker : TickMarker.t F) : Axis.t F :=
  {| Axis.Min := min;
     Axis.Max := max;
     Axis.Label := label;
     Axis.LabelStyle := {| TextStyle.Color := black; TextStyle.Font := sampleFont (lit 12) |};
     Axis.AxisStyle := {| LineStyle.Color := black; LineStyle.Width := lit 1 / lit 64 |};
     Axis.Padding := lit 1 / lit 8;
     Axis.Ticks := sampleTickMarks marker |}.

(** A drawing area with the given corners, at 72 dots per inch. *)
Definition sampleArea (x0 y0 x1 y1 : F) : DrawArea.t F :=
  {| DrawArea.Min := {| Point.X := x0; Point.Y := y0 |};
     DrawArea.Max := {| Point.X := x1; Point.Y := y1 |};
     DrawArea.Center := {| Point.X := (x0 + x1) / lit 2; Point.Y := (y0 + y1) / lit 2 |};
     DrawArea.DPI := lit 72 |}.

(** The two ticks of the specification's example: one major, one minor. *)
Definition sampleTicks : list (Tick.t F) :=
  [ {| Tick.Value := lit 10; Tick.Label := "a" |};
    {| Tick.Value := lit 20; Tick.Label := "" |} ].

End Samples.

(** A font loader that succeeds with [sampleFont], and one that fails. *)
Definition sampleMakeFont (name : string) (size : float) : Font.t float * option string :=
  (sampleFont size, None).

Definition failingMakeFont (name : string) (size : float) : Font.t float * option string :=
  (sampleFont (lit 0), Some ("no such font: " ++ name)).

Definition Z_to_string (z : Z) : string := DecimalString.NilZero.string_of_int (Z.to_int z).

(** A formatter for the sample inputs.  It prints as [%g] does the zeros,
    the values that are not finite and the integral values of magnitude
    below 10^6 (in plain decimal); any other value is printed by its
    mantissa and binary exponent. *)
Definition fmt_g_small (x : float) : string :=
  match Prim2SF x with
  | S754_nan => "NaN"
  | S754_infinity false => "+Inf"
  | S754_infinity true => "-Inf"
  | S754_zero false => "0"
  | S754_zero true => "-0"
  | S754_finite s m e =>
      let sign := if s then "-" else "" in
      let k := (2 ^ (- e))%Z in
      if ((e <=? 0) && (Zpos m mod k =? 0) && (Zpos m / k <? 1000000))%Z
      then sign ++ Z_to_string (Zpos m / k)
      else sign ++ Z_to_string (Zpos m) ++ "p" ++ Z_to_string e
  end.

(** The axis of the specification's scenario: default style, range
    [0,10], label "X"; and a page of 6 by 4 inches. *)
Definition axisX : Axis.t float :=
  sampleAxis 0%float 10%float "X" (DefaultTicks.marker fmt_g_small).

Definition page : DrawArea.t float := sampleArea 0%float 0%float 432%float 288%float.





(** The same scenario in exact arithmetic, with the two sample ticks. *)
Definition exactAxis : Axis.t Q :=
  sampleAxis 0%Q 10%Q "X" (ConstantTicks.marker sampleTicks).

Definition exactPage : DrawArea.t Q := sampleArea 0%Q 0%Q 432%Q 288%Q.

(** The exact axis with a label font whose line height (14) is more than
    ascent (9) less descent (-3). *)
Definition looseAxis : Axis.t Q :=
  {| Axis.Min := Axis.Min exactAxis;
     Axis.Max := Axis.Max exactAxis;
     Axis.Label := Axis.Label exactAxis;
     Axis.LabelStyle :=
       {| TextStyle.Color := black;
          TextStyle.Font :=
            {| Font.Extents :=
                 {| FontExtents.Ascent := 9%Q;
                    FontExtents.Descent := (-3)%Q;
                    FontExtents.Height := 14%Q |};
               Font.Width := Font.Width (sampleFont 12%Q) |} |};
     Axis.AxisStyle := Axis.AxisStyle exactAxis;
     Axis.Padding := Axis.Padding exactAxis;
     Axis.Ticks := Axis.Ticks exactAxis |}.

(** The labels of a list of ticks and their values. *)
Definition labels {F : Type} (ticks : list (Tick.t F)) : list string := map Tick.Label ticks.
Definition values {F : Type} (ticks : list (Tick.t F)) : list F := map Tick.Value ticks.

(** * Reading the calls of a drawing routine *)

Section Calls.
Context {F : Type} {N : Num F}.
Local Open Scope num_scope.

(** The calls that change the coordinate system of the drawing area or
    its stack of saved states. *)
Definition is_transform (op : DrawArea.Op F) : bool :=
  match op with
  | DrawArea.Push | DrawArea.Pop | DrawArea.Rotate _ => true
  | _ => false
  end.

(** The calls that draw text. *)
Definition is_text (op : DrawArea.Op F) : bool :=
  match op with
  | DrawArea.Text _ _ _ _ _ => true
  | _ => false
  end.

(** The strings a sequence of calls draws, in order. *)
Definition drawn_strings (calls : list (DrawArea.Op F)) : list string :=
  flat_map (fun op => match op with DrawArea.Text _ _ _ _ s => [s] | _ => [] end) calls.

(** The polylines a sequence of calls draws, in order. *)
Definition drawn_lines (calls : list (DrawArea.Op F)) : list (list (Point.t F)) :=
  flat_map (fun op => match op with DrawArea.Line pts => [pts] | _ => [] end) calls.

(** The segment from [(x0, y0)] to [(x1, y1)]. *)
Definition segment (x0 y0 x1 y1 : F) : list (Point.t F) :=
  [ {| Point.X := x0; Point.Y := y0 |}; {| Point.X := x1; Point.Y := y1 |} ].

(** The advances of the cursor of [drawHoriz] past the axis label. *)
Definition horiz_label_advances (a : Axis.t F) (da : DrawArea.t F) : list F :=
  terms_if (has_label a)
    [ - (FontExtents.Descent (Axis.labelExtents a) / PtInch * DrawArea.DPI da);
      FontExtents.Ascent (Axis.labelExtents a) / PtInch * DrawArea.DPI da ].

(** The advances of the cursor of [drawVert] past the axis label. *)
Definition vert_label_advances (a : Axis.t F) (da : DrawArea.t F) : list F :=
  terms_if (has_label a)
    [ FontExtents.Ascent (Axis.labelExtents a) / PtInch * DrawArea.DPI da;
      - FontExtents.Descent (Axis.labelExtents a) / PtInch * DrawArea.DPI da ].

(** The advances of the cursor of [drawVert] past the tick labels and
    their space, made when the label width is positive. *)
Definition vert_tick_label_advances (a : Axis.t F) (da : DrawArea.t F) : list F :=
  terms_if (TickMarks.labelWidth (Axis.Ticks a) (marks_of a) >? lit 0)
    [ TickMarks.labelWidth (Axis.Ticks a) (marks_of a) * DrawArea.DPI da;
      Font.Width (TextStyle.Font (TickMarks.LabelStyle (Axis.Ticks a))) " " / PtInch
      * DrawArea.DPI da ].

(** The calls of [drawHoriz] for the axis label. *)
Definition horiz_label_calls (a : Axis.t F) (da : DrawArea.t F) : list (DrawArea.Op F) :=
  if has_label a
  then [ DrawArea.SetTextStyle (Axis.LabelStyle a);
         DrawArea.Text (Point.X (DrawArea.Center da))
           (Point.Y (DrawArea.Min da)
            + - (FontExtents.Descent (Axis.labelExtents a) / PtInch * DrawArea.DPI da))
           (- (lit 1 / lit 2)) (lit 0) (Axis.Label a) ]
  else [].

(** The calls of [drawHoriz] for the ticks: the labels of the major ticks
    at the ordinate [y1], then the tick marks from the ordinate [y2]. *)
Definition horiz_tick_calls (a : Axis.t F) (da : DrawArea.t F) : list (DrawArea.Op F) :=
  let y1 := advance (Point.Y (DrawArea.Min da)) (horiz_label_advances a da) in
  let y2 := y1 + TickMarks.labelHeight (Axis.Ticks a) (marks_of a) * DrawArea.DPI da in
  let len := TickMarks.Length (Axis.Ticks a) * DrawArea.DPI da in
  if nonempty (marks_of a)
  then [ DrawArea.SetLineStyle (TickMarks.MarkStyle (Axis.Ticks a));
         DrawArea.SetTextStyle (TickMarks.LabelStyle (Axis.Ticks a)) ]
       ++ map (fun t => DrawArea.Text (Axis.X a da (Tick.Value t)) y1
                          (- (lit 1 / lit 2)) (lit 0) (Tick.Label t))
              (major (marks_of a))
       ++ map (fun t => DrawArea.Line
                          (segment (Axis.X a da (Tick.Value t)) (y2 + Tick.lengthOffset t len)
                                   (Axis.X a da (Tick.Value t)) (y2 + len)))
              (marks_of a)
  else [].

(** The calls of [drawHoriz], in order. *)
Definition horiz_calls (a : Axis.t F) (da : DrawArea.t F) : list (DrawArea.Op F) :=
  let y3 := advance (Point.Y (DrawArea.Min da)) (horiz_advances a da) in
  horiz_label_calls a da
  ++ horiz_tick_calls a da
  ++ [ DrawArea.SetLineStyle (Axis.AxisStyle a);
       DrawArea.Line (segment (Point.X (DrawArea.Min da)) y3 (Point.X (DrawArea.Max da)) y3) ].

(** The calls of [drawVert] for the axis label. *)
Definition vert_label_calls (a : Axis.t F) (da : DrawArea.t F) : list (DrawArea.Op F) :=
  if has_label a
  then [ DrawArea.SetTextStyle (Axis.LabelStyle a);
         DrawArea.Push;
         DrawArea.Rotate (math_Pi / lit 2);
         DrawArea.Text (Point.Y (DrawArea.Center da))
           (- (Point.X (DrawArea.Min da)
               + FontExtents.Ascent (Axis.labelExtents a) / PtInch * DrawArea.DPI da))
           (- (lit 1 / lit 2)) (lit 0) (Axis.Label a);
         DrawArea.Pop ]
  else [].

(** The calls of [drawVert] for the ticks: the labels of the major ticks
    and the tick marks, both at the abscissa [x2]. *)
Definition vert_tick_calls (a : Axis.t F) (da : DrawArea.t F) : list (DrawArea.Op F) :=
  let x1 := advance (Point.X (DrawArea.Min da)) (vert_label_advances a da) in
  let x2 := advance x1 (vert_tick_label_advances a da) in
  let len := TickMarks.Length (Axis.Ticks a) * DrawArea.DPI da in
  if nonempty (marks_of a)
  then [ DrawArea.SetLineStyle (TickMarks.MarkStyle (Axis.Ticks a));
         DrawArea.SetTextStyle (TickMarks.LabelStyle (Axis.Ticks a)) ]
       ++ map (fun t => DrawArea.Text x2 (Axis.Y a da (Tick.Value t))
                          (lit (-1)) (- (lit 1 / lit 2)) (Tick.Label t ++ " ")%string)
              (major (marks_of a))
       ++ map (fun t => DrawArea.Line
                          (segment (x2 + Tick.lengthOffset t len) (Axis.Y a da (Tick.Value t))
                                   (x2 + len) (Axis.Y a da (Tick.Value t))))
              (marks_of a)
  else [].

(** The calls of [drawVert], in order. *)
Definition vert_calls (a : Axis.t F) (da : DrawArea.t F) : list (DrawArea.Op F) :=
  let x3 := advance (Point.X (DrawArea.Min da)) (vert_advances a da) in
  vert_label_calls a da
  ++ vert_tick_calls a da
  ++ [ DrawArea.SetLineStyle (Axis.AxisStyle a);
       DrawArea.Line (segment x3 (Point.Y (DrawArea.Min da)) x3 (Point.Y (DrawArea.Max da))) ].

End Calls.

(** An unpacked number that is infinite. *)
Definition SFis_inf (x : spec_float) : bool :=
  match x with
  | S754_infinity _ => true
  | _ => false
  end.

(** An axis whose range is the single value 5. *)
Definition pointAxis : Axis.t float :=
  sampleAxis 5%float 5%float "" (ConstantTicks.marker []).

(** The sample ticks with a second major tick, and a labelled axis that
    carries two minor ticks only. *)
Definition sampleTicks3 : list (Tick.t float) :=
  sampleTicks ++ [ {| Tick.Value := 30%float; Tick.Label := "abc" |} ].

Definition minorAxis : Axis.t float :=
  sampleAxis 0%float 10%float "X"
    (ConstantTicks.marker [ {| Tick.Value := 2%float; Tick.Label := "" |};
                            {| Tick.Value := 4%float; Tick.Label := "" |} ]).

(** * Tactics *)

(** Splits on the outcome of every comparison of integers in sight. *)
Ltac order_cases :=
  repeat match goal with
  | |- context [Pos.compare_cont Eq ?a ?b] =>
      change (Pos.compare_cont Eq a b) with (Pos.compare a b) in *
  | H : context [Pos.compare_cont Eq ?a ?b] |- _ =>
      change (Pos.compare_cont Eq a b) with (Pos.compare a b) in *
  | |- context [Z.compare ?a ?b] => destruct (Z.compare_spec a b)
  | H : context [Z.compare ?a ?b] |- _ => destruct (Z.compare_spec a b)
  | |- context [Pos.compare ?a ?b] => destruct (Pos.compare_spec a b)
  | H : context [Pos.compare ?a ?b] |- _ => destruct (Pos.compare_spec a b)
  end.

(** Unfolds the operations of the exact instance. *)
Ltac exact_arith := cbn [fadd fsub fmul fdiv fneg lit rational] in *.

(** * Basic facts *)

Lemma positive_length_nonempty (A : Type) (l : list A) :
  (0 <? List.length l)%nat = nonempty l.
Proof. destruct l; reflexivity. Qed.

(** * Facts of binary64 arithmetic *)

Lemma SFcompare_refl (x : spec_float) : x <> S754_nan -> SFcompare x x = Some Eq.
Proof.
  destruct x as [s|s| |s m e]; cbn [SFcompare]; try congruence; intros _.
  - now destruct s.
  - destruct s; rewrite Z.compare_refl, Pos.compare_cont_refl; reflexivity.
Qed.

Lemma is_nan_SF (x : float) : is_nan x = SFis_nan (Prim2SF x).
Proof.
  unfold is_nan. rewrite eqb_spec. unfold SFeqb.
  destruct (Prim2SF x) eqn:E; try (rewrite SFcompare_refl by discriminate); reflexivity.
Qed.

Lemma is_zero_SF (x : float) : is_zero x = SFis_zero (Prim2SF x).
Proof.
  unfold is_zero. rewrite eqb_spec. unfold SFeqb.
  change (Prim2SF zero) with (S754_zero false).
  destruct (Prim2SF x) as [s|s| |s m e]; cbn; try reflexivity; now destruct s.
Qed.

Lemma is_finite_SF (x : float) : is_finite x = SFfinite (Prim2SF x).
Proof.
  unfold is_finite, is_infinity. rewrite is_nan_SF, eqb_spec, abs_spec. unfold SFeqb.
  change (Prim2SF infinity) with (S754_infinity false).
  destruct (Prim2SF x) as [s|s| |s m e]; cbn; reflexivity.
Qed.

Lemma SFsub_self (x : spec_float) : SFfinite x = true -> SF64sub x x = S754_zero false.
Proof.
  destruct x as [s|s| |s m e]; cbn [SFfinite]; try discriminate; intros _.
  - now destruct s.
  - unfold SF64sub, SFsub. rewrite Z.min_id. unfold shl_align.
    rewrite !Z.sub_diag. reflexivity.
Qed.





Section Rounding.
Local Open Scope Z_scope.






















End Rounding.

(** The same facts on [float]. *)

Section PrimitiveFloats.
Local Open Scope float_scope.



(** Adding zero to a sum that started from zero changes nothing (the sum
    is never the negative zero). *)
Lemma zero_add_add_zero (x : float) : 0 + x + 0 = 0 + x.
Proof.
  apply Prim2SF_inj. rewrite !add_spec.
  change (Prim2SF 0) with (S754_zero false).
  destruct (Prim2SF x) as [[]|[]| |s m e]; reflexivity.
Qed.


End PrimitiveFloats.

(** ** The order of binary64 numbers *)

Lemma SFltb_trans (x y z : spec_float) :
  SFltb x y = true -> SFltb y z = true -> SFltb x z = true.
Proof.
  unfold SFltb.
  destruct x as [sx|sx| |sx mx ex], y as [sy|sy| |sy my ey], z as [sz|sz| |sz mz ez];
    cbn [SFcompare]; try discriminate; try reflexivity;
    try destruct sx; try destruct sy; try destruct sz; try discriminate; try reflexivity;
    intros; order_cases; subst;
    cbn [CompOpp] in *; try discriminate; try reflexivity; try lia.
Qed.

(** Below [z], a number is below any [y] that is not NaN, or [y] is below [z]. *)
Lemma SFltb_cut (x y z : spec_float) :
  SFltb x z = true -> SFis_nan y = false -> SFltb x y = true \/ SFltb y z = true.
Proof.
  unfold SFltb.
  destruct x as [sx|sx| |sx mx ex], y as [sy|sy| |sy my ey], z as [sz|sz| |sz mz ez];
    cbn [SFcompare SFis_nan]; try discriminate; try (intros; now auto);
    try destruct sx; try destruct sy; try destruct sz; try discriminate; try (intros; now auto);
    intros; order_cases; subst;
    cbn [CompOpp] in *; try discriminate; auto; try lia.
Qed.

Lemma SFltb_irrefl (x : spec_float) : SFltb x x = false.
Proof.
  unfold SFltb. destruct x as [s|s| |s m e]; try reflexivity.
  - now destruct s.
  - now rewrite SFcompare_refl.
Qed.

Lemma SFltb_not_nan (x y : spec_float) :
  SFltb x y = true -> SFis_nan x = false /\ SFis_nan y = false.
Proof. destruct x, y; cbn; intros; try discriminate; now split. Qed.

(** Numbers that are not NaN are totally ordered. *)
Lemma SFleb_of_not_ltb (x y : spec_float) :
  SFis_nan x = false -> SFis_nan y = false -> SFltb x y = false -> SFleb y x = true.
Proof.
  unfold SFltb, SFleb.
  destruct x as [sx|sx| |sx mx ex], y as [sy|sy| |sy my ey];
    cbn [SFcompare SFis_nan]; try discriminate; try reflexivity;
    try destruct sx; try destruct sy; try discriminate; try reflexivity;
    intros; order_cases; subst;
    cbn [CompOpp] in *; try discriminate; try reflexivity; try lia.
Qed.

Lemma SFeqb_of_leb_not_ltb (x y : spec_float) :
  SFleb x y = true -> SFltb x y = false -> SFeqb y x = true.
Proof.
  unfold SFltb, SFleb, SFeqb.
  destruct x as [sx|sx| |sx mx ex], y as [sy|sy| |sy my ey];
    cbn [SFcompare]; try discriminate; try reflexivity;
    try destruct sx; try destruct sy; try discriminate; try reflexivity;
    intros; order_cases; subst;
    cbn [CompOpp] in *; try discriminate; try reflexivity; try lia.
Qed.

Section FloatOrder.
Local Open Scope float_scope.

Lemma ltb_trans (x y z : float) : (x <? y) = true -> (y <? z) = true -> (x <? z) = true.
Proof. rewrite !ltb_spec. apply SFltb_trans. Qed.

Lemma ltb_cut (x y z : float) :
  (x <? z) = true -> is_nan y = false -> (x <? y) = true \/ (y <? z) = true.
Proof. rewrite !ltb_spec, is_nan_SF. apply SFltb_cut. Qed.

Lemma ltb_irrefl (x : float) : (x <? x) = false.
Proof. rewrite ltb_spec. apply SFltb_irrefl. Qed.

Lemma ltb_not_nan (x y : float) : (x <? y) = true -> is_nan x = false /\ is_nan y = false.
Proof. rewrite ltb_spec, !is_nan_SF. apply SFltb_not_nan. Qed.

Lemma eqb_of_leb_not_ltb (x y : float) :
  (x <=? y) = true -> (x <? y) = false -> (y =? x) = true.
Proof. rewrite ltb_spec, leb_spec, eqb_spec. apply SFeqb_of_leb_not_ltb. Qed.

Lemma eqb_refl (x : float) : is_nan x = false -> (x =? x) = true.
Proof. unfold is_nan. now rewrite negb_false_iff. Qed.

Lemma leb_of_not_ltb (x y : float) :
  is_nan x = false -> is_nan y = false -> (x <? y) = false -> (y <=? x) = true.
Proof. rewrite ltb_spec, leb_spec, !is_nan_SF. apply SFleb_of_not_ltb. Qed.

(** Folding [wider] from a number that is not NaN gives an upper bound of
    the start and of the list, which is the start or an element. *)
Lemma fold_wider (ws : list float) :
  forall acc : float,
    is_nan acc = false ->
    let m := fold_left wider ws acc in
    is_nan m = false
    /\ (m <? acc) = false
    /\ (forall w, In w ws -> (m <? w) = false)
    /\ (m = acc \/ In m ws).
Proof.
  induction ws as [|w ws IH]; intros acc Hacc; cbn [fold_left].
  - repeat split; auto using ltb_irrefl. intros w [].
  - assert (Hacc' : is_nan (wider acc w) = false).
    { unfold wider. destruct (acc <? w) eqn:E; [|exact Hacc].
      now destruct (ltb_not_nan _ _ E). }
    destruct (IH (wider acc w) Hacc') as (Hnan & Hge & Hub & Hel).
    set (m := fold_left wider ws (wider acc w)) in *.
    split; [exact Hnan|]. split; [|split].
    + destruct (m <? acc) eqn:E; [|reflexivity].
      destruct (ltb_cut _ (wider acc w) _ E Hacc') as [H|H]; [congruence|].
      unfold wider in H. destruct (acc <? w) eqn:E'.
      * pose proof (ltb_trans _ _ _ E' H) as Hc. rewrite ltb_irrefl in Hc. discriminate.
      * rewrite ltb_irrefl in H. discriminate.
    + intros w' [<-|Hin]; [|now apply Hub].
      destruct (m <? w) eqn:E; [|reflexivity].
      destruct (ltb_cut _ (wider acc w) _ E Hacc') as [H|H]; [congruence|].
      unfold wider in H. destruct (acc <? w) eqn:E'.
      * rewrite ltb_irrefl in H. discriminate.
      * congruence.
    + destruct Hel as [Hel|Hel]; [|right; now right].
      unfold wider in Hel. destruct (acc <? w); [right; left; now symmetry | now left].
Qed.

End FloatOrder.

(** * The calls of the drawing routines *)

Section Drawing.
Context {F : Type} {N : Num F}.
Local Open Scope num_scope.

Lemma range_calls (A : Type) (f : A -> DrawArea.Op F) (ts : list A) (calls : list (DrawArea.Op F)) :
  range ts (fun t => call (f t)) calls = (tt, (calls ++ map f ts)%list).
Proof.
  revert calls. induction ts as [|t ts IH]; intros calls; cbn [range map].
  - unfold ret. now rewrite app_nil_r.
  - unfold bind, call. rewrite IH. now rewrite <- app_assoc.
Qed.

Lemma range_calls_unless (A : Type) (skip : A -> bool) (f : A -> DrawArea.Op F)
    (ts : list A) (calls : list (DrawArea.Op F)) :
  range ts (fun t => if skip t then ret tt else call (f t)) calls =
  (tt, (calls ++ map f (filter (fun t => negb (skip t)) ts))%list).
Proof.
  revert calls. induction ts as [|t ts IH]; intros calls; cbn [range map filter].
  - unfold ret. now rewrite app_nil_r.
  - unfold bind. destruct (skip t); cbn [negb map].
    + unfold ret. apply IH.
    + unfold call. rewrite IH. now rewrite <- app_assoc.
Qed.

Lemma bind_ret (A B : Type) (x : A) (k : A -> Draw F B) (calls : list (DrawArea.Op F)) :
  bind (ret x) k calls = k x calls.
Proof. reflexivity. Qed.

Lemma bind_call (B : Type) (op : DrawArea.Op F) (k : unit -> Draw F B) (calls : list (DrawArea.Op F)) :
  bind (call op) k calls = k tt (calls ++ [op])%list.
Proof. reflexivity. Qed.

Lemma bind_bind (A B C : Type) (m : Draw F A) (k : A -> Draw F B) (k' : B -> Draw F C)
    (calls : list (DrawArea.Op F)) :
  bind (bind m k) k' calls = bind m (fun x => bind (k x) k') calls.
Proof. unfold bind. destruct (m calls). reflexivity. Qed.

Lemma bind_range_calls (A B : Type) (f : A -> DrawArea.Op F) (ts : list A)
    (k : unit -> Draw F B) (calls : list (DrawArea.Op F)) :
  bind (range ts (fun t => call (f t))) k calls = k tt (calls ++ map f ts)%list.
Proof. unfold bind. now rewrite range_calls. Qed.

Lemma bind_range_calls_unless (A B : Type) (skip : A -> bool) (f : A -> DrawArea.Op F)
    (ts : list A) (k : unit -> Draw F B) (calls : list (DrawArea.Op F)) :
  bind (range ts (fun t => if skip t then ret tt else call (f t))) k calls =
  k tt (calls ++ map f (filter (fun t => negb (skip t)) ts))%list.
Proof. unfold bind. now rewrite range_calls_unless. Qed.

Lemma final_call_last (calls : list (DrawArea.Op F)) (op : DrawArea.Op F) :
  final_call (calls ++ [op]) = Some op.
Proof.
  unfold final_call. rewrite map_app. cbn [map]. apply last_last.
Qed.

(** The last call of [drawHoriz] draws the axis line, from the left to
    the right edge of the area, at the height the cursor has reached. *)
Lemma drawHoriz_final_call (a : Axis.t F) (da : DrawArea.t F) :
  final_call (calls_of (Axis.drawHoriz a da)) =
  Some (line (Point.X (DrawArea.Min da)) (advance (Point.Y (DrawArea.Min da)) (horiz_advances a da))
             (Point.X (DrawArea.Max da)) (advance (Point.Y (DrawArea.Min da)) (horiz_advances a da))).
Proof.
  unfold calls_of, Axis.drawHoriz, horiz_advances, advance, has_label, marks_of, line.
  rewrite positive_length_nonempty.
  destruct (negb (String.eqb (Axis.Label a) ""));
    destruct (nonempty (TickMarks.Marks (Axis.Ticks a) (Axis.Min a) (Axis.Max a)));
    cbn [terms_if app fold_left]; cbv zeta;
    repeat first
      [ rewrite bind_bind
      | rewrite bind_ret
      | rewrite bind_call
      | rewrite bind_range_calls_unless
      | rewrite bind_range_calls ];
    unfold call; cbn [snd]; apply final_call_last.
Qed.

(** The last call of [drawVert] draws the axis line, from the bottom to
    the top edge of the area, at the abscissa the cursor has reached. *)
Lemma drawVert_final_call (a : Axis.t F) (da : DrawArea.t F) :
  final_call (calls_of (Axis.drawVert a da)) =
  Some (line (advance (Point.X (DrawArea.Min da)) (vert_advances a da)) (Point.Y (DrawArea.Min da))
             (advance (Point.X (DrawArea.Min da)) (vert_advances a da)) (Point.Y (DrawArea.Max da))).
Proof.
  unfold calls_of, Axis.drawVert, vert_advances, advance, has_label, marks_of, line.
  rewrite positive_length_nonempty.
  destruct (negb (String.eqb (Axis.Label a) ""));
    destruct (nonempty (TickMarks.Marks (Axis.Ticks a) (Axis.Min a) (Axis.Max a)));
    cbn [terms_if app fold_left];
    try destruct (TickMarks.labelWidth _ _ >? lit 0);
    cbn [terms_if app fold_left]; cbv zeta;
    repeat first
      [ rewrite bind_bind
      | rewrite bind_ret
      | rewrite bind_call
      | rewrite bind_range_calls_unless
      | rewrite bind_range_calls ];
    unfold call; cbn [snd]; apply final_call_last.
Qed.

End Drawing.

(** * The coordinate transform *)

Section ExactTransform.
Local Open Scope Q_scope.
Variables m M lo hi : Q.
Hypothesis range : m < M.

Lemma affine_at_min : lo + (m - m) / (M - m) * (hi - lo) == lo.
Proof. field. lra. Qed.

Lemma affine_at_max : lo + (M - m) / (M - m) * (hi - lo) == hi.
Proof. field. lra. Qed.

Lemma affine_monotone (x1 x2 : Q) :
  lo <= hi -> x1 <= x2 ->
  lo + (x1 - m) / (M - m) * (hi - lo) <= lo + (x2 - m) / (M - m) * (hi - lo).
Proof.
  intros Hda Hx.
  apply Qplus_le_r.
  apply Qmult_le_compat_r; [|lra].
  unfold Qdiv. apply Qmult_le_compat_r; [lra|].
  apply Qinv_le_0_compat. lra.
Qed.

End ExactTransform.

Section FloatTransform.
Local Open Scope float_scope.
Variables m M lo hi : float.



End FloatTransform.

(** * Ticks and tick markers *)

(** C8: a tick is minor exactly when its label is the empty string, and
    [lengthOffset(len)] is [len/2] for a minor tick and [0] for a major
    one, whatever [len] is. *)
Theorem minor_iff_empty_label_and_lengthOffset :
  forall (F : Type) (N : Num F) (t : Tick.t F),
    (Tick.minor t = true <-> Tick.Label t = "")
    /\ (forall v : F, Tick.minor {| Tick.Value := v; Tick.Label := "" |} = true)
    /\ (forall (v : F) (c : ascii) (s : string),
          Tick.minor {| Tick.Value := v; Tick.Label := String c s |} = false)
    /\ (forall len : F,
          (Tick.Label t = "" -> Tick.lengthOffset t len = (len / lit 2)%num)
          /\ (Tick.Label t <> "" -> Tick.lengthOffset t len = lit 0)).
Proof.
  intros F N t.
  assert (Hm : Tick.minor t = true <-> Tick.Label t = "").
  { unfold Tick.minor. apply String.eqb_eq. }
  split; [exact Hm|].
  split; [reflexivity|].
  split; [reflexivity|].
  intros len. unfold Tick.lengthOffset.
  destruct (Tick.minor t); split; intros H.
  - reflexivity.
  - exfalso. apply H, Hm. reflexivity.
  - apply Hm in H. discriminate.
  - reflexivity.
Qed.

(** C6: a constant marker returns the ticks it holds, unchanged, for
    every range, also through the [TickMarker] interface and through the
    [TickMarks] that embed it; so for the ticks [{10,"a"},{20,""}] and a
    range that contains neither value. *)
Theorem ConstantTicks_Marks_unchanged :
  forall (F : Type) (N : Num F) (tks : ConstantTicks.t) (min max : F),
    ConstantTicks.Marks tks min max = tks
    /\ TickMarker.Marks (ConstantTicks.marker tks) min max = tks
    /\ (forall tick : TickMarks.t F,
          TickMarks.TickMarker tick = ConstantTicks.marker tks ->
          TickMarks.Marks tick min max = tks)
    /\ ConstantTicks.Marks sampleTicks 100%float 200%float = sampleTicks.
Proof.
  intros F N tks min max.
  repeat split.
  intros tick Htick. unfold TickMarks.Marks. rewrite Htick. reflexivity.
Qed.

(** * Space reservation *)

Section Reservation.
Context {F : Type} {N : Num F}.
Local Open Scope num_scope.

(** [height()] accumulates exactly the terms of [height_terms]. *)
Lemma height_sum (a : Axis.t F) : Axis.height a = sum_of (height_terms a).
Proof.
  unfold Axis.height, height_terms, sum_of, has_label, marks_of.
  rewrite positive_length_nonempty.
  destruct (negb (String.eqb (Axis.Label a) ""));
    destruct (nonempty (TickMarks.Marks (Axis.Ticks a) (Axis.Min a) (Axis.Max a)));
    reflexivity.
Qed.

(** [width()] accumulates exactly the terms of [width_terms]. *)
Lemma width_sum (a : Axis.t F) : Axis.width a = sum_of (width_terms a).
Proof.
  unfold Axis.width, width_terms, width_tail, sum_of, has_label, marks_of.
  rewrite positive_length_nonempty.
  destruct (negb (String.eqb (Axis.Label a) ""));
    destruct (nonempty (TickMarks.Marks (Axis.Ticks a) (Axis.Min a) (Axis.Max a)));
    cbn [terms_if term_if app fold_left]; try reflexivity;
    destruct (TickMarks.labelWidth _ _ >? lit 0); reflexivity.
Qed.

End Reservation.

(** C1, as the code has it: [height()] is the sum of the axis-label
    font's height (not its ascent) in inches if the label is not empty,
    of tick length plus [labelHeight(marks)] if there are marks, of half
    the axis line's width, and of the padding; in [float64] the sum is
    the same with 0 for a term that does not apply. *)
Theorem height_sums_label_height_ticks_line_padding :
  (forall (F : Type) (N : Num F) (a : Axis.t F),
     let marks := TickMarks.Marks (Axis.Ticks a) (Axis.Min a) (Axis.Max a) in
     Axis.height a =
     sum_of (term_if (negb (String.eqb (Axis.Label a) ""))
               (FontExtents.Height (Font.Extents (TextStyle.Font (Axis.LabelStyle a))) / PtInch)%num
             ++ term_if (nonempty marks)
                  (TickMarks.Length (Axis.Ticks a) + TickMarks.labelHeight (Axis.Ticks a) marks)%num
             ++ [(LineStyle.Width (Axis.AxisStyle a) / lit 2)%num; Axis.Padding a]))
  /\
  (forall a : Axis.t float,
     let marks := TickMarks.Marks (Axis.Ticks a) (Axis.Min a) (Axis.Max a) in
     Axis.height a =
     sum_of [ if negb (String.eqb (Axis.Label a) "")
              then (FontExtents.Height (Font.Extents (TextStyle.Font (Axis.LabelStyle a))) / 72)%float
              else 0%float;
              if nonempty marks
              then (TickMarks.Length (Axis.Ticks a) + TickMarks.labelHeight (Axis.Ticks a) marks)%float
              else 0%float;
              (LineStyle.Width (Axis.AxisStyle a) / 2)%float;
              Axis.Padding a ]).
Proof.
  split.
  - intros F N a marks. rewrite height_sum. reflexivity.
  - intros a marks. rewrite height_sum. subst marks.
    unfold height_terms, sum_of, has_label, marks_of, Axis.labelExtents.
    destruct (negb (String.eqb (Axis.Label a) ""));
      destruct (nonempty (TickMarks.Marks (Axis.Ticks a) (Axis.Min a) (Axis.Max a)));
      cbn [term_if app fold_left]; cbn [fadd fdiv lit float64 PtInch];
      try reflexivity.
    now rewrite zero_add_add_zero.
Qed.

(** C1 as stated fails: for the axis in the default style with range
    [0,10], label "X" and a 12 point label font of ascent 9 and height 12,
    [height()] is 12/72 + (1/10 + 7.5/72) + 1/128 + 1/8, and the sum that
    has the ascent as its label term is 9/72 + (1/10 + 7.5/72) + 1/128 + 1/8. *)
Lemma height_label_term_is_not_ascent :
  (Axis.height axisX == height_as_specified axisX)%num = false
  /\ Axis.height axisX = 0.50364583333333335%float
  /\ height_as_specified axisX = 0.46197916666666666%float
  /\ FontExtents.Ascent (Axis.labelExtents axisX) = 9%float
  /\ FontExtents.Height (Axis.labelExtents axisX) = 12%float.
Proof. vm_compute. repeat split. Qed.

(** * The coordinate transform *)




(** * Reservation against drawing *)

Section ExactCursors.
Local Open Scope Q_scope.
Variable a : Axis.t Q.
Variable da : DrawArea.t Q.

(** The label font's height is its ascent less its (negative) descent. *)
Hypothesis font_height :
  FontExtents.Height (Axis.labelExtents a)
  == FontExtents.Ascent (Axis.labelExtents a) - FontExtents.Descent (Axis.labelExtents a).

(** In exact arithmetic the cursor of [drawHoriz] ends where [height()]
    says, half the line width and the padding apart. *)
Lemma horiz_cursor_exact :
  advance (Point.Y (DrawArea.Min da)) (horiz_advances a da)
  == Point.Y (DrawArea.Min da) + reserved (Axis.height a) a da.
Proof.
  rewrite height_sum.
  unfold advance, horiz_advances, reserved, height_terms, sum_of, PtInch.
  destruct (has_label a); destruct (nonempty (marks_of a));
    cbn [terms_if term_if app fold_left]; exact_arith;
    try rewrite font_height; field.
Qed.

(** In exact arithmetic the cursor of [drawVert] ends where the width
    with the font's height as label term says. *)
Lemma vert_cursor_exact :
  advance (Point.X (DrawArea.Min da)) (vert_advances a da)
  == Point.X (DrawArea.Min da) + reserved (width_as_specified a) a da.
Proof.
  unfold advance, vert_advances, reserved, width_as_specified, width_tail, space_width,
    sum_of, PtInch.
  destruct (has_label a); destruct (nonempty (marks_of a));
    cbn [terms_if term_if app fold_left];
    try destruct (TickMarks.labelWidth _ _ >? lit 0)%num;
    cbn [terms_if term_if app fold_left]; exact_arith;
    try rewrite font_height; field.
Qed.

End ExactCursors.

(** C3 as stated fails in [float64]: for the axis of the specification's
    scenario (default style, range [0,10], label "X") on a page at 72 dots
    per inch, [drawHoriz] draws the axis line at 26.699999999999999, and
    [da.Min.Y + (height() - Width/2 - Padding) * DPI] is
    26.700000000000003.  It fails in exact arithmetic too for a label font
    whose height is not ascent minus descent: with ascent 9, descent -3
    and height 14 the line is at 26.7, short of the 28.7 that [height()]
    accounts for. *)
Lemma drawHoriz_baseline_off_reserved :
  (final_call (calls_of (Axis.drawHoriz axisX page))
   = Some (line 0 26.699999999999999 432 26.699999999999999)%float
   /\ (Point.Y (DrawArea.Min page) + reserved (Axis.height axisX) axisX page)%num
      = 26.700000000000003%float
   /\ (26.699999999999999
       == Point.Y (DrawArea.Min page) + reserved (Axis.height axisX) axisX page)%float%num
      = false)
  /\ (final_call (calls_of (Axis.drawHoriz looseAxis exactPage))
      = Some (line 0 (advance 0 (horiz_advances looseAxis exactPage)) 432
                (advance 0 (horiz_advances looseAxis exactPage)))%Q
      /\ (advance 0 (horiz_advances looseAxis exactPage) == 267 # 10)%Q
      /\ (Point.Y (DrawArea.Min exactPage) + reserved (Axis.height looseAxis) looseAxis exactPage
          == 287 # 10)%Q).
Proof.
  split.
  - vm_compute. repeat split.
  - split; [apply (drawHoriz_final_call looseAxis exactPage)|].
    split; reflexivity.
Qed.

(** C3, as the code has it: [drawHoriz] ends by drawing the axis line from
    [da.Min.X] to [da.Max().X] at the ordinate its cursor has reached from
    [da.Min.Y], advancing by the label's descent and ascent (if the label
    is not empty) and by the tick label height and the tick length (if
    there are marks), each scaled by [DPI]; in exact arithmetic, and for a
    label font whose height is ascent minus descent, that ordinate is
    [da.Min.Y + (height() - Width/2 - Padding) * DPI]. *)
Theorem drawHoriz_baseline :
  (forall (F : Type) (N : Num F) (a : Axis.t F) (da : DrawArea.t F),
     let marks := TickMarks.Marks (Axis.Ticks a) (Axis.Min a) (Axis.Max a) in
     let y :=
       advance (Point.Y (DrawArea.Min da))
         (terms_if (negb (String.eqb (Axis.Label a) ""))
            [ - (FontExtents.Descent (Axis.labelExtents a) / PtInch * DrawArea.DPI da);
              FontExtents.Ascent (Axis.labelExtents a) / PtInch * DrawArea.DPI da ]%num
          ++ terms_if (nonempty marks)
               [ TickMarks.labelHeight (Axis.Ticks a) marks * DrawArea.DPI da;
                 TickMarks.Length (Axis.Ticks a) * DrawArea.DPI da ]%num) in
     final_call (calls_of (Axis.drawHoriz a da))
     = Some (line (Point.X (DrawArea.Min da)) y (Point.X (DrawArea.Max da)) y))
  /\
  (forall (a : Axis.t Q) (da : DrawArea.t Q),
     (FontExtents.Height (Axis.labelExtents a)
      == FontExtents.Ascent (Axis.labelExtents a) - FontExtents.Descent (Axis.labelExtents a))%Q ->
     exists y : Q,
       final_call (calls_of (Axis.drawHoriz a da))
       = Some (line (Point.X (DrawArea.Min da)) y (Point.X (DrawArea.Max da)) y)
       /\ (y == Point.Y (DrawArea.Min da)
                + (Axis.height a - LineStyle.Width (Axis.AxisStyle a) / 2 - Axis.Padding a)
                  * DrawArea.DPI da)%Q).
Proof.
  split.
  - intros F N a da marks y. apply drawHoriz_final_call.
  - intros a da Hfont.
    exists (advance (Point.Y (DrawArea.Min da)) (horiz_advances a da)).
    split; [apply drawHoriz_final_call|].
    now apply horiz_cursor_exact.
Qed.

(** C3 on the sample axis and page, in exact arithmetic. *)
Lemma drawHoriz_baseline_witness :
  exists y : Q,
    final_call (calls_of (Axis.drawHoriz exactAxis exactPage))
    = Some (line (Point.X (DrawArea.Min exactPage)) y (Point.X (DrawArea.Max exactPage)) y)
    /\ (y == Point.Y (DrawArea.Min exactPage)
             + (Axis.height exactAxis - LineStyle.Width (Axis.AxisStyle exactAxis) / 2
                - Axis.Padding exactAxis)
               * DrawArea.DPI exactPage)%Q.
Proof.
  apply (proj2 drawHoriz_baseline exactAxis exactPage).
  reflexivity.
Defined.
(** * Label measurement *)

Section LabelMeasurement.
Context {F : Type} {N : Num F}.
Local Open Scope num_scope.

(** [labelHeight] looks at the major ticks only: it is the ascent in inches
    when there is one and zero when there is none. *)
Lemma labelHeight_major (tick : TickMarks.t F) (ticks : list (Tick.t F)) :
  TickMarks.labelHeight tick ticks =
  if nonempty (major ticks)
  then FontExtents.Ascent (Font.Extents (TextStyle.Font (TickMarks.LabelStyle tick))) / PtInch
  else lit 0.
Proof.
  induction ticks as [|t ticks IH]; cbn [TickMarks.labelHeight major filter]; [reflexivity|].
  destruct (Tick.minor t); cbn [negb nonempty]; [exact IH | reflexivity].
Qed.

(** The loop of [labelWidth] passes over minor ticks. *)
Lemma fold_widen_major (tick : TickMarks.t F) (ticks : list (Tick.t F)) :
  forall acc : F,
    fold_left (TickMarks.widen tick) ticks acc = fold_left (TickMarks.widen tick) (major ticks) acc.
Proof.
  induction ticks as [|t ticks IH]; intros acc; cbn [fold_left major filter]; [reflexivity|].
  destruct (Tick.minor t) eqn:E; cbn [negb fold_left].
  - replace (TickMarks.widen tick acc t) with acc
      by (unfold TickMarks.widen; now rewrite E).
    apply IH.
  - apply IH.
Qed.

Lemma major_major (ticks : list (Tick.t F)) : major (major ticks) = major ticks.
Proof.
  unfold major. induction ticks as [|t ticks IH]; cbn [filter]; [reflexivity|].
  destruct (negb (Tick.minor t)) eqn:E; cbn [filter]; [rewrite E; f_equal|]; exact IH.
Qed.

Lemma major_of_minor (ticks : list (Tick.t F)) : major (filter Tick.minor ticks) = [].
Proof.
  unfold major. induction ticks as [|t ticks IH]; cbn [filter]; [reflexivity|].
  destruct (Tick.minor t) eqn:E; cbn [filter]; [rewrite E; cbn [negb]|]; exact IH.
Qed.

Lemma In_major (ticks : list (Tick.t F)) (t : Tick.t F) :
  In t (major ticks) <-> In t ticks /\ Tick.minor t = false.
Proof.
  unfold major. rewrite filter_In, negb_true_iff. reflexivity.
Qed.

End LabelMeasurement.

(** On [float64] the loop of [labelWidth] folds [wider] over the widths
    of the major labels. *)
Lemma fold_widen_wider (tick : TickMarks.t float) (ticks : list (Tick.t float)) :
  forall acc : float,
    fold_left (TickMarks.widen tick) ticks acc
    = fold_left wider (map (label_points tick) (major ticks)) acc.
Proof.
  induction ticks as [|t ticks IH]; intros acc; cbn [fold_left major filter map]; [reflexivity|].
  destruct (Tick.minor t) eqn:E; cbn [negb map fold_left].
  - replace (TickMarks.widen tick acc t) with acc
      by (unfold TickMarks.widen; now rewrite E).
    apply IH.
  - replace (TickMarks.widen tick acc t) with (wider acc (label_points tick t))
      by (unfold TickMarks.widen; now rewrite E).
    apply IH.
Qed.

(** C7: [labelHeight(ticks)] is the label font's ascent in inches when the
    list has a major tick and 0 when it has none (so for the empty list
    and for a list of minor ticks); [labelWidth(ticks)] is, in inches, the
    largest measured width [w] of the labels of the major ticks, counted
    from 0: no major label is wider than [w], [w] is 0 or the width of a
    major label, [w] is 0 when there is no major tick, and when no width
    is negative [w] is the width of a major label if there is one; minor
    ticks change neither result. *)
Theorem labelHeight_ascent_labelWidth_maximum :
  forall (tick : TickMarks.t float) (ticks : list (Tick.t float)),
    let font := TextStyle.Font (TickMarks.LabelStyle tick) in
    (TickMarks.labelHeight tick ticks
     = if nonempty (major ticks)
       then (FontExtents.Ascent (Font.Extents font) / PtInch)%float
       else 0%float)
    /\ TickMarks.labelHeight tick [] = 0%float
    /\ TickMarks.labelHeight tick (filter Tick.minor ticks) = 0%float
    /\ (exists w : float,
          TickMarks.labelWidth tick ticks = (w / PtInch)%float
          /\ (forall t, In t ticks -> Tick.minor t = false ->
                        (w <? Font.Width font (Tick.Label t))%float = false)
          /\ (w = 0%float
              \/ exists t, In t ticks /\ Tick.minor t = false /\ Font.Width font (Tick.Label t) = w)
          /\ (major ticks = [] -> w = 0%float)
          /\ (0 <=? w)%float = true
          /\ ((forall t, In t ticks -> Tick.minor t = false ->
                         (0 <=? Font.Width font (Tick.Label t))%float = true) ->
              major ticks <> [] ->
              exists t, In t ticks /\ Tick.minor t = false
                        /\ (Font.Width font (Tick.Label t) =? w)%float = true))
    /\ TickMarks.labelWidth tick [] = 0%float
    /\ TickMarks.labelWidth tick (filter Tick.minor ticks) = 0%float
    /\ TickMarks.labelHeight tick (major ticks) = TickMarks.labelHeight tick ticks
    /\ TickMarks.labelWidth tick (major ticks) = TickMarks.labelWidth tick ticks.
Proof.
  intros tick ticks font.
  split; [exact (labelHeight_major tick ticks)|].
  split; [reflexivity|].
  split; [rewrite labelHeight_major, major_of_minor; reflexivity|].
  split.
  - unfold TickMarks.labelWidth. cbv zeta. rewrite fold_widen_wider.
    assert (H0 : is_nan (lit 0) = false) by reflexivity.
    destruct (fold_wider (map (label_points tick) (major ticks)) (lit 0) H0)
      as (Hnan & Hge & Hub & Hel).
    set (w := fold_left wider (map (label_points tick) (major ticks)) (lit 0)) in *.
    assert (Hbound : forall t, In t ticks -> Tick.minor t = false ->
                               (w <? Font.Width font (Tick.Label t))%float = false).
    { intros t Hin Hmajor. apply Hub. apply in_map_iff.
      exists t. split; [reflexivity|]. now apply In_major. }
    exists w. split; [reflexivity|]. split; [exact Hbound|]. split; [|split; [|split]].
    + destruct Hel as [Hel|Hel]; [now left|right].
      apply in_map_iff in Hel. destruct Hel as (t & Hw & Hin).
      apply In_major in Hin. exists t. now repeat split.
    + intros Hnone. subst w. rewrite Hnone. reflexivity.
    + now apply leb_of_not_ltb.
    + intros Hwidths Hsome.
      destruct Hel as [Hel|Hel].
      * destruct (major ticks) as [|t rest] eqn:Emajor; [contradiction|].
        assert (Hin : In t ticks /\ Tick.minor t = false).
        { apply In_major. rewrite Emajor. now left. }
        destruct Hin as [Hin Hmajor].
        exists t. split; [exact Hin|]. split; [exact Hmajor|].
        rewrite Hel. apply eqb_of_leb_not_ltb.
        -- now apply Hwidths.
        -- rewrite <- Hel. now apply Hbound.
      * apply in_map_iff in Hel. destruct Hel as (t & Hw & Hin).
        apply In_major in Hin. destruct Hin as [Hin Hmajor].
        exists t. split; [exact Hin|]. split; [exact Hmajor|].
        unfold label_points in Hw. fold font in Hw. rewrite Hw. now apply eqb_refl.
  - split; [reflexivity|].
    split.
    + unfold TickMarks.labelWidth. cbv zeta. rewrite fold_widen_major, major_of_minor.
      reflexivity.
    + split.
      * rewrite !labelHeight_major, major_major. reflexivity.
      * unfold TickMarks.labelWidth. cbv zeta. now rewrite <- fold_widen_major.
Qed.

(** C7 on the two sample ticks, in the default style: the widest major
    label is "a", 5 points wide. *)
Lemma labelHeight_ascent_labelWidth_maximum_witness :
  TickMarks.labelHeight (sampleTickMarks (ConstantTicks.marker sampleTicks)) sampleTicks
  = (7.5 / 72)%float
  /\ exists w : float,
       TickMarks.labelWidth (sampleTickMarks (ConstantTicks.marker sampleTicks)) sampleTicks
       = (w / PtInch)%float
       /\ exists t : Tick.t float,
            In t sampleTicks /\ Tick.minor t = false
            /\ (Font.Width (sampleFont 10%float) (Tick.Label t) =? w)%float = true.
Proof.
  destruct (labelHeight_ascent_labelWidth_maximum
              (sampleTickMarks (ConstantTicks.marker sampleTicks)) sampleTicks)
    as (Hheight & _ & _ & (w & Hwidth & _ & _ & _ & _ & Hmax) & _).
  split; [exact Hheight|].
  exists w. split; [exact Hwidth|].
  apply Hmax.
  - intros t [<-|[<-|[]]] Hmajor; reflexivity.
  - discriminate.
Defined.
(** * The default marker *)

Lemma Z_to_string_nonempty (z : Z) : Z_to_string z <> "".
Proof.
  unfold Z_to_string. destruct (Z.to_int z) as [d|d]; cbn; [|discriminate].
  destruct d; cbn; discriminate.
Qed.

Lemma append_nonempty_r (s t : string) : t <> "" -> s ++ t <> "".
Proof.
  intros Ht H. destruct s; cbn in H; [contradiction|discriminate].
Qed.

Lemma fmt_g_small_nonempty (x : float) : fmt_g_small x <> "".
Proof.
  unfold fmt_g_small.
  destruct (Prim2SF x) as [[]|[]| |s m e]; try discriminate.
  cbv zeta.
  destruct (_ && _)%bool; apply append_nonempty_r.
  - apply Z_to_string_nonempty.
  - intros H. destruct (Z_to_string (Zpos m)); discriminate.
Qed.


Section DefaultMarks.
Local Open Scope float_scope.

Variable Sprintf_g : float -> string.

(** What is used of [%g]: it never prints the empty string, and it prints
    0, 50 and 100 as "0", "50" and "100". *)
Hypothesis Sprintf_g_nonempty : forall x : float, Sprintf_g x <> "".
Hypothesis Sprintf_g_0 : Sprintf_g 0 = "0".
Hypothesis Sprintf_g_50 : Sprintf_g 50 = "50".
Hypothesis Sprintf_g_100 : Sprintf_g 100 = "100".



End DefaultMarks.







(** * Constructors *)

(** C9 as stated fails: when the font cannot be loaded the constructors
    do not return; they panic with the loader's error. *)
Lemma constructors_panic_without_font :
  snd (failingMakeFont DefaultFont 12%float) = Some "no such font: Times-Roman"
  /\ MakeAxis string failingMakeFont black fmt_g_small = Panics "no such font: Times-Roman"
  /\ MakeTickMarks string failingMakeFont fmt_g_small = Panics "no such font: Times-Roman"
  /\ (forall a, MakeAxis string failingMakeFont black fmt_g_small <> Returns a)
  /\ (forall tick, MakeTickMarks string failingMakeFont fmt_g_small <> Returns tick).
Proof. repeat split; discriminate. Qed.

(** C9, as the code has it: [MakeTickMarks] panics with the error of the
    10 point font, and [MakeAxis] with the error of the 12 point font or,
    that font made, with the error of the 10 point font of its tick
    marks; failing fonts are the only cause of a panic, and with both
    fonts made the constructors return the default values. *)
Theorem constructors_panic_exactly_on_font_failure :
  forall (error : Type) (MakeFont : string -> float -> Font.t float * option error)
         (Black : Color.RGBA) (Sprintf_g : float -> string),
    let font10 := MakeFont DefaultFont 10%float in
    let font12 := MakeFont DefaultFont 12%float in
    let ticks :=
      {| TickMarks.LabelStyle :=
           {| TextStyle.Color := Color.mk 0 0 0 255; TextStyle.Font := fst font10 |};
         TickMarks.MarkStyle :=
           {| LineStyle.Color := Color.mk 0 0 0 255; LineStyle.Width := 0.015625%float |};
         TickMarks.Length := 0.1%float;
         TickMarks.TickMarker := DefaultTicks.marker Sprintf_g |} in
    (forall e, MakeTickMarks error MakeFont Sprintf_g = Panics e <-> snd font10 = Some e)
    /\ (MakeTickMarks error MakeFont Sprintf_g = Returns ticks <-> snd font10 = None)
    /\ (forall e,
          MakeAxis error MakeFont Black Sprintf_g = Panics e
          <-> snd font12 = Some e \/ (snd font12 = None /\ snd font10 = Some e))
    /\ (MakeAxis error MakeFont Black Sprintf_g
        = Returns {| Axis.Min := infinity;
                     Axis.Max := neg_infinity;
                     Axis.Label := "";
                     Axis.LabelStyle :=
                       {| TextStyle.Color := Black; TextStyle.Font := fst font12 |};
                     Axis.AxisStyle :=
                       {| LineStyle.Color := Black; LineStyle.Width := 0.015625%float |};
                     Axis.Padding := 0.125%float;
                     Axis.Ticks := ticks |}
        <-> snd font12 = None /\ snd font10 = None).
Proof.
  intros error MakeFont Black Sprintf_g font10 font12 ticks.
  unfold MakeAxis, MakeTickMarks, and_then.
  change (lit 10) with 10%float. change (lit 12) with 12%float.
  fold font10 font12.
  destruct font10 as [f10 [e10|]], font12 as [f12 [e12|]]; cbn [fst snd];
    repeat split; intros; try discriminate; try congruence;
    repeat match goal with
    | H : _ \/ _ |- _ => destruct H
    | H : _ /\ _ |- _ => destruct H
    end; try discriminate; try congruence; auto;
    try (left; congruence); try (right; split; congruence).
Qed.

(** With the sample font loader the constructors return the default
    axis: the sample axis with the unset range and no label. *)
Lemma MakeAxis_with_sample_fonts :
  MakeAxis string sampleMakeFont black fmt_g_small
  = Returns (sampleAxis infinity neg_infinity "" (DefaultTicks.marker fmt_g_small))
  /\ MakeTickMarks string sampleMakeFont fmt_g_small
     = Returns (sampleTickMarks (DefaultTicks.marker fmt_g_small)).
Proof. split; reflexivity. Qed.

(** * The width of a vertical axis *)

(** C2 against the code.  [width()] takes the ascent of the label font as
    its label term, where the claim has the font's height: on the axis of
    the scenario (12 point label font of ascent 9, descent -3 and height
    12) it returns 0.56614583333333335 and the sum with the height is
    0.60781249999999998.  [drawVert] advances past the label by ascent and
    descent: on the page it draws the axis line at 34.2, where [width()]
    accounts for 31.2 before the line; in exact arithmetic, for every
    axis whose label font has height ascent minus descent, the line is
    where the width with the height as label term says. *)
Theorem width_label_term_is_ascent :
  (forall (F : Type) (N : Num F) (a : Axis.t F),
     Axis.width a
     = sum_of (term_if (has_label a) (FontExtents.Ascent (Axis.labelExtents a) / PtInch)%num
               ++ width_tail a))
  /\ Axis.width axisX = 0.56614583333333335%float
  /\ width_as_specified axisX = 0.60781249999999998%float
  /\ (Axis.width axisX == width_as_specified axisX)%num = false
  /\ final_call (calls_of (Axis.drawVert axisX page))
     = Some (line 34.200000000000003 0 34.200000000000003 288)%float
  /\ (Point.X (DrawArea.Min page) + reserved (Axis.width axisX) axisX page)%num
     = 31.200000000000003%float
  /\ (forall (a : Axis.t Q) (da : DrawArea.t Q),
        (FontExtents.Height (Axis.labelExtents a)
         == FontExtents.Ascent (Axis.labelExtents a) - FontExtents.Descent (Axis.labelExtents a))%Q ->
        exists x : Q,
          final_call (calls_of (Axis.drawVert a da))
          = Some (line x (Point.Y (DrawArea.Min da)) x (Point.Y (DrawArea.Max da)))
          /\ (x == Point.X (DrawArea.Min da)
                   + (width_as_specified a - LineStyle.Width (Axis.AxisStyle a) / 2
                      - Axis.Padding a)
                     * DrawArea.DPI da)%Q).
Proof.
  split; [intros F N a; apply width_sum|].
  repeat (split; [vm_compute; reflexivity|]).
  intros a da Hfont.
  exists (advance (Point.X (DrawArea.Min da)) (vert_advances a da)).
  split; [apply drawVert_final_call|].
  now apply vert_cursor_exact.
Qed.

(** * The drawing routines, call by call *)

Section Traces.
Context {F : Type} {N : Num F}.
Local Open Scope num_scope.

(** [drawHoriz] makes the calls of [horiz_calls], in that order. *)
Lemma drawHoriz_calls (a : Axis.t F) (da : DrawArea.t F) :
  calls_of (Axis.drawHoriz a da) = horiz_calls a da.
Proof.
  unfold calls_of, Axis.drawHoriz, horiz_calls, horiz_label_calls, horiz_tick_calls,
    horiz_advances, horiz_label_advances, advance, has_label, marks_of, segment, major.
  rewrite positive_length_nonempty.
  destruct (negb (String.eqb (Axis.Label a) ""));
    destruct (nonempty (TickMarks.Marks (Axis.Ticks a) (Axis.Min a) (Axis.Max a)));
    cbn [terms_if app fold_left]; cbv zeta;
    repeat first
      [ rewrite bind_bind
      | rewrite bind_ret
      | rewrite bind_call
      | rewrite bind_range_calls_unless
      | rewrite bind_range_calls ];
    unfold call; cbn [snd app]; rewrite <- ?app_assoc; reflexivity.
Qed.

(** [drawVert] makes the calls of [vert_calls], in that order. *)
Lemma drawVert_calls (a : Axis.t F) (da : DrawArea.t F) :
  calls_of (Axis.drawVert a da) = vert_calls a da.
Proof.
  unfold calls_of, Axis.drawVert, vert_calls, vert_label_calls, vert_tick_calls,
    vert_advances, vert_label_advances, vert_tick_label_advances, advance, has_label,
    marks_of, segment, major.
  rewrite positive_length_nonempty.
  destruct (negb (String.eqb (Axis.Label a) ""));
    destruct (nonempty (TickMarks.Marks (Axis.Ticks a) (Axis.Min a) (Axis.Max a)));
    cbn [terms_if app fold_left];
    try destruct (TickMarks.labelWidth _ _ >? lit 0);
    cbn [terms_if app fold_left]; cbv zeta;
    repeat first
      [ rewrite bind_bind
      | rewrite bind_ret
      | rewrite bind_call
      | rewrite bind_range_calls_unless
      | rewrite bind_range_calls ];
    unfold call; cbn [snd app]; rewrite <- ?app_assoc; reflexivity.
Qed.

(** Reading a list of calls made of parts. *)

Lemma drawn_strings_app (l1 l2 : list (DrawArea.Op F)) :
  drawn_strings (l1 ++ l2) = (drawn_strings l1 ++ drawn_strings l2)%list.
Proof. apply flat_map_app. Qed.

Lemma drawn_lines_app (l1 l2 : list (DrawArea.Op F)) :
  drawn_lines (l1 ++ l2) = (drawn_lines l1 ++ drawn_lines l2)%list.
Proof. apply flat_map_app. Qed.

Lemma flat_map_each (A B C : Type) (f : A -> B) (r : B -> list C) (g : A -> C) (ts : list A) :
  (forall t, r (f t) = [g t]) -> flat_map r (map f ts) = map g ts.
Proof.
  intros H. induction ts as [|t ts IH]; cbn [map flat_map]; [reflexivity|].
  now rewrite H, IH.
Qed.

Lemma flat_map_none (A B C : Type) (f : A -> B) (r : B -> list C) (ts : list A) :
  (forall t, r (f t) = []) -> flat_map r (map f ts) = [].
Proof.
  intros H. induction ts as [|t ts IH]; cbn [map flat_map]; [reflexivity|].
  now rewrite H, IH.
Qed.

Lemma filter_map_all (A B : Type) (p : B -> bool) (f : A -> B) (ts : list A) :
  (forall t, p (f t) = true) -> filter p (map f ts) = map f ts.
Proof.
  intros H. induction ts as [|t ts IH]; cbn [map filter]; [reflexivity|].
  now rewrite H, IH.
Qed.

Lemma filter_map_none (A B : Type) (p : B -> bool) (f : A -> B) (ts : list A) :
  (forall t, p (f t) = false) -> filter p (map f ts) = [].
Proof.
  intros H. induction ts as [|t ts IH]; cbn [map filter]; [reflexivity|].
  now rewrite H, IH.
Qed.

(** The calls for the ticks: what they draw. *)

Lemma horiz_tick_calls_strings (a : Axis.t F) (da : DrawArea.t F) :
  drawn_strings (horiz_tick_calls a da) = labels (major (marks_of a)).
Proof.
  unfold horiz_tick_calls, labels. cbv zeta.
  destruct (marks_of a) as [|t ts]; [reflexivity|]. cbn [nonempty].
  rewrite !drawn_strings_app. unfold drawn_strings at 2 3.
  rewrite (flat_map_each _ _ _ _ _ Tick.Label) by reflexivity.
  rewrite flat_map_none by reflexivity.
  now rewrite app_nil_r.
Qed.

Lemma vert_tick_calls_strings (a : Axis.t F) (da : DrawArea.t F) :
  drawn_strings (vert_tick_calls a da)
  = map (fun t => (Tick.Label t ++ " ")%string) (major (marks_of a)).
Proof.
  unfold vert_tick_calls. cbv zeta.
  destruct (marks_of a) as [|t ts]; [reflexivity|]. cbn [nonempty].
  rewrite !drawn_strings_app. unfold drawn_strings at 2 3.
  rewrite (flat_map_each _ _ _ _ _ (fun t => (Tick.Label t ++ " ")%string)) by reflexivity.
  rewrite flat_map_none by reflexivity.
  now rewrite app_nil_r.
Qed.

Lemma horiz_tick_calls_lines (a : Axis.t F) (da : DrawArea.t F) :
  let y2 := advance (Point.Y (DrawArea.Min da)) (horiz_label_advances a da)
            + TickMarks.labelHeight (Axis.Ticks a) (marks_of a) * DrawArea.DPI da in
  let len := TickMarks.Length (Axis.Ticks a) * DrawArea.DPI da in
  drawn_lines (horiz_tick_calls a da)
  = map (fun t => segment (Axis.X a da (Tick.Value t)) (y2 + Tick.lengthOffset t len)
                          (Axis.X a da (Tick.Value t)) (y2 + len))
        (marks_of a).
Proof.
  unfold horiz_tick_calls. cbv zeta.
  destruct (marks_of a) as [|t ts]; [reflexivity|]. cbn [nonempty].
  rewrite !drawn_lines_app. unfold drawn_lines at 2 3.
  rewrite flat_map_none by reflexivity.
  now erewrite flat_map_each by reflexivity.
Qed.

Lemma vert_tick_calls_lines (a : Axis.t F) (da : DrawArea.t F) :
  let x2 := advance (advance (Point.X (DrawArea.Min da)) (vert_label_advances a da))
              (vert_tick_label_advances a da) in
  let len := TickMarks.Length (Axis.Ticks a) * DrawArea.DPI da in
  drawn_lines (vert_tick_calls a da)
  = map (fun t => segment (x2 + Tick.lengthOffset t len) (Axis.Y a da (Tick.Value t))
                          (x2 + len) (Axis.Y a da (Tick.Value t)))
        (marks_of a).
Proof.
  unfold vert_tick_calls. cbv zeta.
  destruct (marks_of a) as [|t ts]; [reflexivity|]. cbn [nonempty].
  rewrite !drawn_lines_app. unfold drawn_lines at 2 3.
  rewrite flat_map_none by reflexivity.
  now erewrite flat_map_each by reflexivity.
Qed.

Lemma horiz_tick_calls_texts (a : Axis.t F) (da : DrawArea.t F) :
  filter is_text (horiz_tick_calls a da)
  = map (fun t => DrawArea.Text (Axis.X a da (Tick.Value t))
                    (advance (Point.Y (DrawArea.Min da)) (horiz_label_advances a da))
                    (- (lit 1 / lit 2)) (lit 0) (Tick.Label t))
        (major (marks_of a)).
Proof.
  unfold horiz_tick_calls. cbv zeta.
  destruct (marks_of a) as [|t ts]; [reflexivity|]. cbn [nonempty].
  rewrite !filter_app.
  rewrite (filter_map_all _ _ is_text) by reflexivity.
  rewrite (filter_map_none _ _ is_text) by reflexivity.
  now rewrite app_nil_r.
Qed.

Lemma vert_tick_calls_texts (a : Axis.t F) (da : DrawArea.t F) :
  filter is_text (vert_tick_calls a da)
  = map (fun t => DrawArea.Text
                    (advance (advance (Point.X (DrawArea.Min da)) (vert_label_advances a da))
                       (vert_tick_label_advances a da))
                    (Axis.Y a da (Tick.Value t))
                    (lit (-1)) (- (lit 1 / lit 2)) (Tick.Label t ++ " ")%string)
        (major (marks_of a)).
Proof.
  unfold vert_tick_calls. cbv zeta.
  destruct (marks_of a) as [|t ts]; [reflexivity|]. cbn [nonempty].
  rewrite !filter_app.
  rewrite (filter_map_all _ _ is_text) by reflexivity.
  rewrite (filter_map_none _ _ is_text) by reflexivity.
  now rewrite app_nil_r.
Qed.

(** The strings [drawHoriz] draws: the axis label when it is not empty,
    then the labels of the major ticks. *)
Lemma horiz_calls_strings (a : Axis.t F) (da : DrawArea.t F) :
  drawn_strings (horiz_calls a da)
  = ((if has_label a then [Axis.Label a] else []) ++ labels (major (marks_of a)))%list.
Proof.
  unfold horiz_calls. cbv zeta.
  rewrite !drawn_strings_app, horiz_tick_calls_strings.
  unfold horiz_label_calls. destruct (has_label a); cbn; now rewrite app_nil_r.
Qed.

(** The strings [drawVert] draws: the axis label when it is not empty,
    then the label of each major tick followed by a space. *)
Lemma vert_calls_strings (a : Axis.t F) (da : DrawArea.t F) :
  drawn_strings (vert_calls a da)
  = ((if has_label a then [Axis.Label a] else [])
     ++ map (fun t => (Tick.Label t ++ " ")%string) (major (marks_of a)))%list.
Proof.
  unfold vert_calls. cbv zeta.
  rewrite !drawn_strings_app, vert_tick_calls_strings.
  unfold vert_label_calls. destruct (has_label a); cbn; now rewrite app_nil_r.
Qed.

(** The calls for the ticks leave the coordinate system alone. *)
Lemma horiz_tick_calls_no_transform (a : Axis.t F) (da : DrawArea.t F) (op : DrawArea.Op F) :
  In op (horiz_tick_calls a da) -> is_transform op = false.
Proof.
  unfold horiz_tick_calls. cbv zeta.
  destruct (nonempty (marks_of a)); [|intros []].
  intros Hin. apply in_app_or in Hin. destruct Hin as [[<-|[<-|[]]]|Hin]; try reflexivity.
  apply in_app_or in Hin.
  destruct Hin as [Hin|Hin]; apply in_map_iff in Hin; destruct Hin as (t & <- & _);
    reflexivity.
Qed.

Lemma vert_tick_calls_no_transform (a : Axis.t F) (da : DrawArea.t F) (op : DrawArea.Op F) :
  In op (vert_tick_calls a da) -> is_transform op = false.
Proof.
  unfold vert_tick_calls. cbv zeta.
  destruct (nonempty (marks_of a)); [|intros []].
  intros Hin. apply in_app_or in Hin. destruct Hin as [[<-|[<-|[]]]|Hin]; try reflexivity.
  apply in_app_or in Hin.
  destruct Hin as [Hin|Hin]; apply in_map_iff in Hin; destruct Hin as (t & <- & _);
    reflexivity.
Qed.

(** Where the cursor of [drawHoriz] ends: a tick length past the start of
    the tick marks when there are ticks, and past the label when not. *)
Lemma horiz_advances_ticks (a : Axis.t F) (da : DrawArea.t F) :
  advance (Point.Y (DrawArea.Min da)) (horiz_advances a da)
  = if nonempty (marks_of a)
    then advance (Point.Y (DrawArea.Min da)) (horiz_label_advances a da)
         + TickMarks.labelHeight (Axis.Ticks a) (marks_of a) * DrawArea.DPI da
         + TickMarks.Length (Axis.Ticks a) * DrawArea.DPI da
    else advance (Point.Y (DrawArea.Min da)) (horiz_label_advances a da).
Proof.
  unfold horiz_advances, horiz_label_advances, advance.
  destruct (nonempty (marks_of a)); cbn [terms_if].
  - now rewrite fold_left_app.
  - now rewrite app_nil_r.
Qed.

Lemma vert_advances_ticks (a : Axis.t F) (da : DrawArea.t F) :
  advance (Point.X (DrawArea.Min da)) (vert_advances a da)
  = if nonempty (marks_of a)
    then advance (advance (Point.X (DrawArea.Min da)) (vert_label_advances a da))
           (vert_tick_label_advances a da)
         + TickMarks.Length (Axis.Ticks a) * DrawArea.DPI da
    else advance (Point.X (DrawArea.Min da)) (vert_label_advances a da).
Proof.
  unfold vert_advances, vert_label_advances, vert_tick_label_advances, advance.
  destruct (nonempty (marks_of a)); cbn [terms_if].
  - now rewrite !fold_left_app.
  - now rewrite app_nil_r.
Qed.

Lemma has_label_nonempty (a : Axis.t F) : has_label a = true -> Axis.Label a <> "".
Proof.
  unfold has_label. rewrite negb_true_iff. intros H E. rewrite E in H. discriminate.
Qed.

Lemma major_label_nonempty (ticks : list (Tick.t F)) (t : Tick.t F) :
  In t (major ticks) -> Tick.Label t <> "".
Proof.
  intros H. apply In_major in H. destruct H as [_ H]. unfold Tick.minor in H.
  intros E. rewrite E in H. discriminate.
Qed.

End Traces.

(** X1: [drawHoriz] draws the axis label, when it is not empty, and then
    the label of each major tick, in the order of the ticks, and no other
    text; it never draws an empty string; it never calls [Push], [Pop] or
    [Rotate]; and it draws one line per tick (minor or major) and the axis
    line. *)
Theorem drawHoriz_draws_label_then_major_tick_labels :
  forall (F : Type) (N : Num F) (a : Axis.t F) (da : DrawArea.t F),
    let calls := calls_of (Axis.drawHoriz a da) in
    drawn_strings calls
    = ((if has_label a then [Axis.Label a] else []) ++ labels (major (marks_of a)))%list
    /\ (forall s : string, In s (drawn_strings calls) -> s <> "")
    /\ (forall op : DrawArea.Op F, In op calls -> is_transform op = false)
    /\ List.length (drawn_lines calls) = S (List.length (marks_of a)).
Proof.
  intros F N a da calls. subst calls. rewrite drawHoriz_calls.
  split; [apply horiz_calls_strings|]. split; [|split].
  - rewrite horiz_calls_strings. intros s Hin.
    apply in_app_or in Hin. destruct Hin as [Hin|Hin].
    + destruct (has_label a) eqn:E; [|destruct Hin].
      destruct Hin as [<-|[]]. now apply has_label_nonempty.
    + unfold labels in Hin. apply in_map_iff in Hin. destruct Hin as (t & <- & Hin).
      exact (major_label_nonempty _ _ Hin).
  - unfold horiz_calls. cbv zeta. intros op Hin.
    apply in_app_or in Hin. destruct Hin as [Hin|Hin].
    + unfold horiz_label_calls in Hin.
      destruct (has_label a); [|destruct Hin].
      destruct Hin as [<-|[<-|[]]]; reflexivity.
    + apply in_app_or in Hin. destruct Hin as [Hin|Hin].
      * exact (horiz_tick_calls_no_transform a da op Hin).
      * destruct Hin as [<-|[<-|[]]]; reflexivity.
  - unfold horiz_calls. cbv zeta.
    rewrite !drawn_lines_app, (horiz_tick_calls_lines a da). cbv zeta.
    rewrite !length_app, length_map.
    unfold horiz_label_calls. destruct (has_label a); cbn; apply Nat.add_1_r.
Qed.

(** X2: [drawVert] draws the axis label, when it is not empty, and then
    the label of each major tick followed by one space, in the order of
    the ticks, and no other text.  When the axis label is not empty the
    first five calls are [SetTextStyle(a.LabelStyle)], [Push],
    [Rotate(math.Pi/2)], the label text at
    [(da.Center().Y, -(da.Min.X + Ascent/PtInch*DPI))] and [Pop], and no
    later call is a [Push], [Pop] or [Rotate]: the rotation applies to
    the axis label only.  When the label is empty there is no [Push],
    [Pop] or [Rotate] at all.  One line is drawn per tick, and the axis
    line. *)
Theorem drawVert_rotates_the_axis_label_only :
  forall (F : Type) (N : Num F) (a : Axis.t F) (da : DrawArea.t F),
    let calls := calls_of (Axis.drawVert a da) in
    drawn_strings calls
    = ((if has_label a then [Axis.Label a] else [])
       ++ map (fun t => (Tick.Label t ++ " ")%string) (major (marks_of a)))%list
    /\ (if has_label a
        then exists rest : list (DrawArea.Op F),
               calls
               = ([ DrawArea.SetTextStyle (Axis.LabelStyle a);
                    DrawArea.Push;
                    DrawArea.Rotate (math_Pi / lit 2)%num;
                    DrawArea.Text (Point.Y (DrawArea.Center da))
                      (- (Point.X (DrawArea.Min da)
                          + FontExtents.Ascent (Axis.labelExtents a) / PtInch
                            * DrawArea.DPI da))%num
                      (- (lit 1 / lit 2))%num (lit 0) (Axis.Label a);
                    DrawArea.Pop ] ++ rest)%list
               /\ forall op : DrawArea.Op F, In op rest -> is_transform op = false
        else forall op : DrawArea.Op F, In op calls -> is_transform op = false)
    /\ List.length (drawn_lines calls) = S (List.length (marks_of a)).
Proof.
  intros F N a da calls. subst calls. rewrite drawVert_calls.
  split; [apply vert_calls_strings|].
  unfold vert_calls. cbv zeta.
  set (axis_line := [DrawArea.SetLineStyle (Axis.AxisStyle a); _]).
  assert (Hrest : forall op : DrawArea.Op F,
                    In op (vert_tick_calls a da ++ axis_line)%list -> is_transform op = false).
  { intros op Hin. apply in_app_or in Hin. destruct Hin as [Hin|Hin].
    - exact (vert_tick_calls_no_transform a da op Hin).
    - destruct Hin as [<-|[<-|[]]]; reflexivity. }
  split.
  - unfold vert_label_calls. destruct (has_label a).
    + exists (vert_tick_calls a da ++ axis_line)%list. split; [reflexivity | exact Hrest].
    + exact Hrest.
  - rewrite !drawn_lines_app, (vert_tick_calls_lines a da). cbv zeta.
    rewrite !length_app, length_map.
    unfold vert_label_calls. destruct (has_label a); cbn; apply Nat.add_1_r.
Qed.

(** X3: the lines of [drawHoriz] are one vertical tick mark per tick, at
    the abscissa [X(da, t.Value)], followed by the axis line.  Every tick
    mark ends exactly on the axis line; a major tick mark starts where
    the cursor stands after the tick labels and a minor one half the tick
    length ([Length * DPI]) further, and the axis line is one tick length
    past that cursor.  [drawVert] does the same with the coordinates
    exchanged and [Y(da, t.Value)].  In exact arithmetic a major tick
    mark is [Length * DPI] long and a minor one half of that. *)
Theorem tick_marks_end_on_the_axis_line :
  (forall (F : Type) (N : Num F) (a : Axis.t F) (da : DrawArea.t F),
     let len := (TickMarks.Length (Axis.Ticks a) * DrawArea.DPI da)%num in
     let y0 := (advance (Point.Y (DrawArea.Min da)) (horiz_label_advances a da)
                + TickMarks.labelHeight (Axis.Ticks a) (marks_of a) * DrawArea.DPI da)%num in
     let y := advance (Point.Y (DrawArea.Min da)) (horiz_advances a da) in
     let x0 := advance (advance (Point.X (DrawArea.Min da)) (vert_label_advances a da))
                 (vert_tick_label_advances a da) in
     let x := advance (Point.X (DrawArea.Min da)) (vert_advances a da) in
     drawn_lines (calls_of (Axis.drawHoriz a da))
     = (map (fun t =>
               segment (Axis.X a da (Tick.Value t))
                       (y0 + (if Tick.minor t then len / lit 2 else lit 0))%num
                       (Axis.X a da (Tick.Value t)) y)
            (marks_of a)
        ++ [segment (Point.X (DrawArea.Min da)) y (Point.X (DrawArea.Max da)) y])%list
     /\ (if nonempty (marks_of a) then y = (y0 + len)%num
         else y = advance (Point.Y (DrawArea.Min da)) (horiz_label_advances a da))
     /\ drawn_lines (calls_of (Axis.drawVert a da))
        = (map (fun t =>
                  segment (x0 + (if Tick.minor t then len / lit 2 else lit 0))%num
                          (Axis.Y a da (Tick.Value t))
                          x (Axis.Y a da (Tick.Value t)))
               (marks_of a)
           ++ [segment x (Point.Y (DrawArea.Min da)) x (Point.Y (DrawArea.Max da))])%list
     /\ (if nonempty (marks_of a) then x = (x0 + len)%num
         else x = advance (Point.X (DrawArea.Min da)) (vert_label_advances a da)))
  /\
  (forall (a : Axis.t Q) (da : DrawArea.t Q) (t : Tick.t Q),
     let len := (TickMarks.Length (Axis.Ticks a) * DrawArea.DPI da)%Q in
     let y0 := (advance (Point.Y (DrawArea.Min da)) (horiz_label_advances a da)
                + TickMarks.labelHeight (Axis.Ticks a) (marks_of a) * DrawArea.DPI da)%Q in
     let x0 := advance (advance (Point.X (DrawArea.Min da)) (vert_label_advances a da))
                 (vert_tick_label_advances a da) in
     (y0 + len - (y0 + Tick.lengthOffset t len) == if Tick.minor t then len / 2 else len)%Q
     /\ (x0 + len - (x0 + Tick.lengthOffset t len) == if Tick.minor t then len / 2 else len)%Q).
Proof.
  split.
  - intros F N a da len y0 y x0 x.
    pose proof (horiz_advances_ticks a da) as Hy. fold y y0 len in Hy.
    pose proof (vert_advances_ticks a da) as Hx. fold x x0 len in Hx.
    split; [|split; [|split]].
    + rewrite drawHoriz_calls. unfold horiz_calls. cbv zeta.
      rewrite !drawn_lines_app, (horiz_tick_calls_lines a da). cbv zeta. fold len y0 y.
      replace (drawn_lines (horiz_label_calls a da)) with (@nil (list (Point.t F)))
        by (unfold horiz_label_calls; now destruct (has_label a)).
      rewrite app_nil_l. f_equal.
      destruct (marks_of a) as [|t ts] eqn:E; [reflexivity|].
      cbn [nonempty] in Hy. rewrite Hy. reflexivity.
    + destruct (nonempty (marks_of a)); exact Hy.
    + rewrite drawVert_calls. unfold vert_calls. cbv zeta.
      rewrite !drawn_lines_app, (vert_tick_calls_lines a da). cbv zeta. fold len x0 x.
      replace (drawn_lines (vert_label_calls a da)) with (@nil (list (Point.t F)))
        by (unfold vert_label_calls; now destruct (has_label a)).
      rewrite app_nil_l. f_equal.
      destruct (marks_of a) as [|t ts] eqn:E; [reflexivity|].
      cbn [nonempty] in Hx. rewrite Hx. reflexivity.
    + destruct (nonempty (marks_of a)); exact Hx.
  - intros a da t len y0 x0. unfold Tick.lengthOffset.
    destruct (Tick.minor t); exact_arith; split; field.
Qed.

(** * The transform outside its domain *)

Lemma is_infinity_SF (x : float) : is_infinity x = SFis_inf (Prim2SF x).
Proof.
  unfold is_infinity. rewrite eqb_spec, abs_spec. unfold SFeqb.
  change (Prim2SF infinity) with (S754_infinity false).
  destruct (Prim2SF x) as [s|s| |s m e]; cbn; reflexivity.
Qed.

(** Two numbers that compare equal are the same number, the two zeros
    apart. *)
Lemma SFeqb_eq (x y : spec_float) :
  SFeqb x y = true -> SFis_zero x = false -> x = y.
Proof.
  unfold SFeqb.
  destruct x as [s|s| |s m e]; destruct y as [s'|s'| |s' m' e'];
    cbn [SFcompare SFis_zero]; try discriminate;
    try (destruct s; discriminate); try (destruct s'; discriminate);
    destruct s, s'; try discriminate; try reflexivity;
    intros; order_cases; subst; cbn [CompOpp] in *; try discriminate; reflexivity.
Qed.

Lemma SFsub_eqb_zero (m M : spec_float) :
  SFfinite m = true -> SFeqb m M = true -> SFis_zero (SF64sub M m) = true.
Proof.
  intros Hfin Heq. destruct (SFis_zero m) eqn:Hz.
  - destruct m as [s|s| |s m e]; try discriminate.
    unfold SFeqb in Heq.
    destruct M as [s'|s'| |s' m' e']; cbn [SFcompare] in Heq;
      try discriminate; try (destruct s'; discriminate).
    destruct s, s'; reflexivity.
  - rewrite <- (SFeqb_eq _ _ Heq Hz), (SFsub_self _ Hfin). reflexivity.
Qed.

Lemma SFdiv_by_zero (n d : spec_float) :
  SFis_zero d = true -> SFfinite (SF64div n d) = false.
Proof.
  destruct d as [s|s| |s m e]; try discriminate; intros _.
  destruct n as [s'|s'| |s' m' e']; reflexivity.
Qed.

Lemma SFmul_not_finite (p w : spec_float) :
  SFfinite p = false -> SFfinite (SF64mul p w) = false.
Proof.
  destruct p as [s|s| |s m e]; try discriminate; intros _;
    destruct w as [s'|s'| |s' m' e']; reflexivity.
Qed.

Lemma SFadd_not_finite (lo t : spec_float) :
  SFfinite t = false -> SFfinite (SF64add lo t) = false.
Proof.
  destruct t as [s|s| |s m e]; try discriminate; intros _;
    destruct lo as [s'|s'| |s' m' e']; try reflexivity.
  destruct s, s'; reflexivity.
Qed.

Lemma SFsub_inf_not_finite (x m : spec_float) :
  SFis_inf m = true -> SFfinite (SF64sub x m) = false.
Proof.
  destruct m as [s|s| |s m e]; try discriminate; intros _.
  destruct x as [s'|s'| |s' m' e']; try reflexivity.
  destruct s, s'; reflexivity.
Qed.

Lemma SFdiv_not_finite (n d : spec_float) :
  SFfinite n = false -> SFfinite d = false -> SF64div n d = S754_nan.
Proof.
  destruct n as [s|s| |s m e]; try discriminate;
    destruct d as [s'|s'| |s' m' e']; try discriminate; reflexivity.
Qed.

Lemma SFsub_nan (x m : spec_float) :
  SFis_nan x || SFis_nan m = true -> SF64sub x m = S754_nan.
Proof.
  destruct x as [s|s| |s m0 e]; destruct m as [s'|s'| |s' m' e']; try discriminate; reflexivity.
Qed.

Lemma SFdiv_nan (n d : spec_float) :
  SFis_nan n || SFis_nan d = true -> SF64div n d = S754_nan.
Proof.
  destruct n as [s|s| |s m0 e]; destruct d as [s'|s'| |s' m' e']; try discriminate; reflexivity.
Qed.

Lemma SFadd_mul_nan (lo w : spec_float) : SF64add lo (SF64mul S754_nan w) = S754_nan.
Proof. destruct lo; reflexivity. Qed.

Section FloatRange.
Local Open Scope float_scope.
Variables x m M lo hi : float.

(** The transform of a range of a single finite value is never finite. *)
Lemma affine_of_empty_range :
  is_finite m = true -> (m =? M) = true ->
  is_finite (lo + (x - m) / (M - m) * (hi - lo)) = false.
Proof.
  rewrite !is_finite_SF, eqb_spec, add_spec, mul_spec, div_spec, !sub_spec.
  intros Hfin Heq.
  apply SFadd_not_finite, SFmul_not_finite, SFdiv_by_zero.
  now apply SFsub_eqb_zero.
Qed.

(** The transform is NaN when the value or an end of the range is. *)
Lemma affine_of_nan :
  is_nan x || is_nan m || is_nan M = true ->
  is_nan (lo + (x - m) / (M - m) * (hi - lo)) = true.
Proof.
  rewrite !is_nan_SF, add_spec, mul_spec, div_spec, !sub_spec.
  intros H. rewrite SFdiv_nan; [now rewrite SFadd_mul_nan|].
  apply orb_true_iff in H. destruct H as [H|H].
  - rewrite (SFsub_nan (Prim2SF x)); [reflexivity|].
    apply orb_true_iff in H. destruct H as [H|H]; rewrite H; [reflexivity|apply orb_true_r].
  - rewrite (SFsub_nan (Prim2SF M)); [apply orb_true_r|].
    rewrite H. reflexivity.
Qed.

(** The transform is NaN when both ends of the range are infinite. *)
Lemma affine_of_infinite_range :
  is_infinity m = true -> is_infinity M = true ->
  is_nan (lo + (x - m) / (M - m) * (hi - lo)) = true.
Proof.
  rewrite !is_infinity_SF, is_nan_SF, add_spec, mul_spec, div_spec, !sub_spec.
  intros Hm HM.
  rewrite SFdiv_not_finite by now apply SFsub_inf_not_finite.
  now rewrite SFadd_mul_nan.
Qed.

End FloatRange.

(** X4: when [Min] is finite and [Min == Max] (a range of a single
    value), [X] and [Y] return no finite number, whatever the value and
    the drawing area: the division by [Max - Min = 0] gives NaN or an
    infinity, and so does the result. *)
Theorem X_Y_of_a_single_value_range_are_not_finite :
  forall (a : Axis.t float) (da : DrawArea.t float) (x : float),
    is_finite (Axis.Min a) = true -> (Axis.Min a == Axis.Max a)%num = true ->
    is_finite (Axis.X a da x) = false /\ is_finite (Axis.Y a da x) = false.
Proof.
  intros a da x Hfin Heq. unfold Axis.X, Axis.Y.
  cbn [fadd fsub fmul fdiv feqb float64] in *.
  split; now apply affine_of_empty_range.
Qed.

(** X4 on the range [5,5] and the page: the value 5 is sent to NaN and
    the value 6 to an infinity. *)
Lemma X_Y_of_a_single_value_range_are_not_finite_witness :
  (is_finite (Axis.X pointAxis page 5%float) = false
   /\ is_finite (Axis.Y pointAxis page 5%float) = false)
  /\ is_nan (Axis.X pointAxis page 5%float) = true
  /\ Axis.X pointAxis page 6%float = infinity.
Proof.
  split; [|split].
  - apply (X_Y_of_a_single_value_range_are_not_finite pointAxis page 5%float); reflexivity.
  - reflexivity.
  - reflexivity.
Defined.

(** X5: [X] and [Y] return NaN when the value, [Min] or [Max] is NaN, and
    when [Min] and [Max] are both infinite, whatever the drawing area. *)
Theorem X_Y_are_NaN_on_NaN_and_on_an_infinite_range :
  forall (a : Axis.t float) (da : DrawArea.t float) (x : float),
    is_nan x || is_nan (Axis.Min a) || is_nan (Axis.Max a)
    || is_infinity (Axis.Min a) && is_infinity (Axis.Max a) = true ->
    is_nan (Axis.X a da x) = true /\ is_nan (Axis.Y a da x) = true.
Proof.
  intros a da x H. unfold Axis.X, Axis.Y.
  cbn [fadd fsub fmul fdiv float64].
  apply orb_true_iff in H. destruct H as [H|H].
  - split; now apply affine_of_nan.
  - apply andb_true_iff in H. destruct H as [Hm HM].
    split; now apply affine_of_infinite_range.
Qed.

(** X5 on the page: a NaN value on the range [0,10], and the value 1 on
    the range from -Inf to +Inf. *)
Lemma X_Y_are_NaN_on_NaN_and_on_an_infinite_range_witness :
  (is_nan (Axis.X axisX page nan) = true /\ is_nan (Axis.Y axisX page nan) = true)
  /\ (is_nan (Axis.X (sampleAxis neg_infinity infinity "" (ConstantTicks.marker [])) page 1%float) = true
      /\ is_nan (Axis.Y (sampleAxis neg_infinity infinity "" (ConstantTicks.marker [])) page 1%float)
         = true).
Proof.
  split.
  - apply (X_Y_are_NaN_on_NaN_and_on_an_infinite_range axisX page nan). reflexivity.
  - apply (X_Y_are_NaN_on_NaN_and_on_an_infinite_range
             (sampleAxis neg_infinity infinity "" (ConstantTicks.marker [])) page 1%float).
    reflexivity.
Defined.

(** X6: the axis [MakeAxis] returns has [Min = +Inf] and [Max = -Inf],
    the empty label and the default tick marker; until its range is set,
    [X] and [Y] return NaN for every value and every drawing area. *)
Theorem MakeAxis_range_is_unset :
  forall (error : Type) (MakeFont : string -> float -> Font.t float * option error)
         (Black : Color.RGBA) (Sprintf_g : float -> string) (a : Axis.t float),
    MakeAxis error MakeFont Black Sprintf_g = Returns a ->
    Axis.Min a = infinity /\ Axis.Max a = neg_infinity /\ Axis.Label a = ""
    /\ TickMarks.TickMarker (Axis.Ticks a) = DefaultTicks.marker Sprintf_g
    /\ forall (da : DrawArea.t float) (x : float),
         is_nan (Axis.X a da x) = true /\ is_nan (Axis.Y a da x) = true.
Proof.
  intros error MakeFont Black Sprintf_g a.
  unfold MakeAxis, MakeTickMarks.
  destruct (MakeFont DefaultFont (lit 12)) as [font12 [e|]]; [discriminate|].
  destruct (MakeFont DefaultFont (lit 10)) as [font10 [e|]]; [discriminate|].
  cbn [and_then]. intros H. injection H as <-.
  repeat (split; [reflexivity|]).
  intros da x. unfold Axis.X, Axis.Y.
  cbn [Axis.Min Axis.Max fadd fsub fmul fdiv float64].
  split; now apply affine_of_infinite_range.
Qed.

(** X6 with the sample font loader. *)
Lemma MakeAxis_range_is_unset_witness :
  exists a : Axis.t float,
    MakeAxis string sampleMakeFont black fmt_g_small = Returns a
    /\ Axis.Min a = infinity /\ Axis.Max a = neg_infinity
    /\ is_nan (Axis.X a page 0%float) = true.
Proof.
  eexists. split; [reflexivity|].
  destruct (MakeAxis_range_is_unset string sampleMakeFont black fmt_g_small _ eq_refl)
    as (Hmin & Hmax & _ & _ & Hnan).
  split; [exact Hmin|]. split; [exact Hmax|]. exact (proj1 (Hnan page 0%float)).
Defined.

(** * The transform and the layout in exact arithmetic *)

Section ExactAffine.
Local Open Scope Q_scope.
Variables m M lo hi : Q.
Hypothesis range : m < M.

Lemma affine_slope (x1 x2 : Q) :
  (lo + (x2 - m) / (M - m) * (hi - lo)) - (lo + (x1 - m) / (M - m) * (hi - lo))
  == (x2 - x1) * ((hi - lo) / (M - m)).
Proof. field. lra. Qed.

Lemma affine_increasing (x1 x2 : Q) :
  lo < hi -> x1 < x2 ->
  lo + (x1 - m) / (M - m) * (hi - lo) < lo + (x2 - m) / (M - m) * (hi - lo).
Proof.
  intros Hda Hx.
  apply Qplus_lt_r.
  apply Qmult_lt_compat_r; [lra|].
  unfold Qdiv. apply Qmult_lt_compat_r; [|lra].
  apply Qinv_lt_0_compat. lra.
Qed.

Lemma affine_inside (x : Q) :
  lo <= hi -> m <= x <= M ->
  lo <= lo + (x - m) / (M - m) * (hi - lo) <= hi.
Proof.
  intros Hda [Hm HM]. split.
  - apply Qle_trans with (lo + (m - m) / (M - m) * (hi - lo)).
    + rewrite (affine_at_min m M lo hi range). apply Qle_refl.
    + now apply affine_monotone.
  - apply Qle_trans with (lo + (M - m) / (M - m) * (hi - lo)).
    + now apply affine_monotone.
    + rewrite (affine_at_max m M lo hi range). apply Qle_refl.
Qed.

End ExactAffine.

(** X7: in exact arithmetic, for [Min < Max], [X] has the constant slope
    [(da.Max().X - da.Min.X) / (Max - Min)]; when the corners of the area
    are in order it sends every value of [[Min, Max]] inside
    [[da.Min.X, da.Max().X]], and when they are strictly in order it is
    strictly increasing, so that no two values share a coordinate.
    Likewise [Y] on the other coordinate. *)
Theorem X_Y_send_the_range_inside_the_area :
  forall (a : Axis.t Q) (da : DrawArea.t Q),
    (Axis.Min a < Axis.Max a)%Q ->
    ((forall x1 x2 : Q,
        Axis.X a da x2 - Axis.X a da x1
        == (x2 - x1) * ((Point.X (DrawArea.Max da) - Point.X (DrawArea.Min da))
                        / (Axis.Max a - Axis.Min a)))
     /\ (Point.X (DrawArea.Min da) <= Point.X (DrawArea.Max da) ->
         forall x : Q, Axis.Min a <= x <= Axis.Max a ->
           Point.X (DrawArea.Min da) <= Axis.X a da x <= Point.X (DrawArea.Max da))
     /\ (Point.X (DrawArea.Min da) < Point.X (DrawArea.Max da) ->
         forall x1 x2 : Q, x1 < x2 -> Axis.X a da x1 < Axis.X a da x2))%Q
    /\
    ((forall y1 y2 : Q,
        Axis.Y a da y2 - Axis.Y a da y1
        == (y2 - y1) * ((Point.Y (DrawArea.Max da) - Point.Y (DrawArea.Min da))
                        / (Axis.Max a - Axis.Min a)))
     /\ (Point.Y (DrawArea.Min da) <= Point.Y (DrawArea.Max da) ->
         forall y : Q, Axis.Min a <= y <= Axis.Max a ->
           Point.Y (DrawArea.Min da) <= Axis.Y a da y <= Point.Y (DrawArea.Max da))
     /\ (Point.Y (DrawArea.Min da) < Point.Y (DrawArea.Max da) ->
         forall y1 y2 : Q, y1 < y2 -> Axis.Y a da y1 < Axis.Y a da y2))%Q.
Proof.
  intros a da Hrange. unfold Axis.X, Axis.Y. exact_arith.
  split; (split; [|split]).
  - intros x1 x2. now apply affine_slope.
  - intros Hda x Hx. now apply affine_inside.
  - intros Hda x1 x2 Hx. now apply affine_increasing.
  - intros y1 y2. now apply affine_slope.
  - intros Hda y Hy. now apply affine_inside.
  - intros Hda y1 y2 Hy. now apply affine_increasing.
Qed.

(** X7 on the axis [0,10] and the page of 432 by 288: the value 5 is sent
    to the middle of the page. *)
Lemma X_Y_send_the_range_inside_the_area_witness :
  (0 <= Axis.X exactAxis exactPage 5 <= 432)%Q
  /\ (Axis.X exactAxis exactPage 2 < Axis.X exactAxis exactPage 5)%Q
  /\ (Axis.X exactAxis exactPage 5 == 216)%Q.
Proof.
  assert (Hrange : (Axis.Min exactAxis < Axis.Max exactAxis)%Q) by reflexivity.
  destruct (X_Y_send_the_range_inside_the_area exactAxis exactPage Hrange)
    as ((_ & Hin & Hlt) & _).
  split; [|split].
  - apply Hin; [discriminate|]. split; discriminate.
  - apply Hlt; reflexivity.
  - reflexivity.
Defined.

(** X8: in exact arithmetic, for [Min < Max], the five default ticks of
    the range [[Min, Max]] are drawn evenly spaced across the area: [X]
    sends their values to [da.Min.X], a quarter, half and three quarters
    of the way to [da.Max().X], and [da.Max().X]; likewise [Y]. *)
Theorem DefaultTicks_are_evenly_spaced_in_the_area :
  forall (Sprintf_g : Q -> string) (a : Axis.t Q) (da : DrawArea.t Q),
    (Axis.Min a < Axis.Max a)%Q ->
    let marks := DefaultTicks.Marks Sprintf_g (Axis.Min a) (Axis.Max a) in
    let quarters (lo hi : Q) : list Q :=
      [ lo; lo + (hi - lo) / 4; lo + (hi - lo) / 2; lo + 3 * (hi - lo) / 4; hi ]%Q in
    Forall2 Qeq (map (Axis.X a da) (values marks))
                (quarters (Point.X (DrawArea.Min da)) (Point.X (DrawArea.Max da)))
    /\ Forall2 Qeq (map (Axis.Y a da) (values marks))
                   (quarters (Point.Y (DrawArea.Min da)) (Point.Y (DrawArea.Max da))).
Proof.
  intros g a da Hrange marks quarters. subst marks quarters.
  unfold DefaultTicks.Marks, values, Axis.X, Axis.Y. cbn [map Tick.Value]. exact_arith.
  split; repeat constructor; field; lra.
Qed.

(** X8 on the axis [0,10] and the page of 432 by 288. *)
Lemma DefaultTicks_are_evenly_spaced_in_the_area_witness :
  Forall2 Qeq
    (map (Axis.X exactAxis exactPage)
         (values (DefaultTicks.Marks (fun _ => "") (Axis.Min exactAxis) (Axis.Max exactAxis))))
    [0; 0 + (432 - 0) / 4; 0 + (432 - 0) / 2; 0 + 3 * (432 - 0) / 4; 432]%Q.
Proof.
  assert (Hrange : (Axis.Min exactAxis < Axis.Max exactAxis)%Q) by reflexivity.
  destruct (DefaultTicks_are_evenly_spaced_in_the_area (fun _ => "") exactAxis exactPage Hrange)
    as [H _].
  exact H.
Defined.

(** X9: in exact arithmetic, and for every axis, font and area:
    [drawVert] draws its axis line at
    [da.Min.X + (width() - Width/2 - Padding) * DPI] when the axis label
    is empty, and further to the right by [-Descent/PtInch * DPI] (the
    descent of the label font, which is negative) when it is not;
    [drawHoriz] draws its axis line at
    [da.Min.Y + (height() - Width/2 - Padding) * DPI] when the axis label
    is empty, and displaced by [(Ascent - Descent - Height)/PtInch * DPI]
    when it is not. *)
Theorem axis_line_against_the_space_accounted_for :
  forall (a : Axis.t Q) (da : DrawArea.t Q),
    exists x y : Q,
      final_call (calls_of (Axis.drawVert a da))
      = Some (line x (Point.Y (DrawArea.Min da)) x (Point.Y (DrawArea.Max da)))
      /\ final_call (calls_of (Axis.drawHoriz a da))
         = Some (line (Point.X (DrawArea.Min da)) y (Point.X (DrawArea.Max da)) y)
      /\ (x == Point.X (DrawArea.Min da)
               + (Axis.width a - LineStyle.Width (Axis.AxisStyle a) / 2 - Axis.Padding a)
                 * DrawArea.DPI da
               + (if has_label a
                  then - FontExtents.Descent (Axis.labelExtents a) / 72 * DrawArea.DPI da
                  else 0))%Q
      /\ (y == Point.Y (DrawArea.Min da)
               + (Axis.height a - LineStyle.Width (Axis.AxisStyle a) / 2 - Axis.Padding a)
                 * DrawArea.DPI da
               + (if has_label a
                  then (FontExtents.Ascent (Axis.labelExtents a)
                        - FontExtents.Descent (Axis.labelExtents a)
                        - FontExtents.Height (Axis.labelExtents a)) / 72 * DrawArea.DPI da
                  else 0))%Q.
Proof.
  intros a da.
  exists (advance (Point.X (DrawArea.Min da)) (vert_advances a da)).
  exists (advance (Point.Y (DrawArea.Min da)) (horiz_advances a da)).
  split; [apply drawVert_final_call|]. split; [apply drawHoriz_final_call|]. split.
  - rewrite width_sum.
    unfold advance, vert_advances, width_terms, width_tail, space_width, sum_of, PtInch.
    destruct (has_label a); destruct (nonempty (marks_of a));
      cbn [terms_if term_if app fold_left];
      try destruct (TickMarks.labelWidth _ _ >? lit 0)%num;
      cbn [terms_if term_if app fold_left]; exact_arith; field.
  - rewrite height_sum.
    unfold advance, horiz_advances, height_terms, sum_of, PtInch.
    destruct (has_label a); destruct (nonempty (marks_of a));
      cbn [terms_if term_if app fold_left]; exact_arith; field.
Qed.

(** * More on label measurement *)

Section WiderOrder.
Local Open Scope float_scope.

Lemma eqb_eq (x y : float) : (x =? y) = true -> is_zero x = false -> x = y.
Proof.
  rewrite eqb_spec, is_zero_SF. intros Heq Hz.
  apply Prim2SF_inj. now apply SFeqb_eq.
Qed.

Lemma ltb_zero_not_zero (x : float) : (0 <? x) = true -> is_zero x = false.
Proof.
  rewrite ltb_spec, is_zero_SF. unfold SFltb.
  change (Prim2SF 0) with (S754_zero false).
  destruct (Prim2SF x) as [s|s| |s m e]; cbn [SFcompare SFis_zero];
    try discriminate; reflexivity.
Qed.

(** Folding [wider] returns the start, or an element above the start. *)
Lemma fold_wider_above (ws : list float) :
  forall acc : float,
    let m := fold_left wider ws acc in
    m = acc \/ (In m ws /\ (acc <? m) = true).
Proof.
  induction ws as [|w ws IH]; intros acc; cbn [fold_left]; [now left|].
  destruct (IH (wider acc w)) as [H|[Hin Hlt]]; unfold wider in *;
    destruct (acc <? w) eqn:E.
  - right. rewrite H. split; [now left | exact E].
  - now left.
  - right. split; [now right|]. exact (ltb_trans _ _ _ E Hlt).
  - right. split; [now right | exact Hlt].
Qed.

(** The widest of a list, counted from zero, depends on the elements of
    the list only. *)
Lemma fold_wider_elements (ws ws' : list float) :
  (forall w, In w ws <-> In w ws') ->
  fold_left wider ws 0 = fold_left wider ws' 0.
Proof.
  intros Hsame.
  assert (H0 : is_nan 0 = false) by reflexivity.
  destruct (fold_wider ws 0 H0) as (Hnan & _ & Hub & _).
  destruct (fold_wider ws' 0 H0) as (Hnan' & _ & Hub' & _).
  pose proof (fold_wider_above ws 0) as Hel.
  pose proof (fold_wider_above ws' 0) as Hel'.
  cbv zeta in *.
  set (m := fold_left wider ws 0) in *.
  set (m' := fold_left wider ws' 0) in *.
  destruct Hel as [Hel|[Hin Hpos]]; destruct Hel' as [Hel'|[Hin' Hpos']].
  - congruence.
  - apply Hsame in Hin'. apply Hub in Hin'. rewrite Hel in Hin'. congruence.
  - apply Hsame in Hin. apply Hub' in Hin. rewrite Hel' in Hin. congruence.
  - apply Hsame in Hin'. apply Hub in Hin'.
    apply Hsame in Hin. apply Hub' in Hin.
    apply eqb_eq; [|now apply ltb_zero_not_zero].
    apply eqb_of_leb_not_ltb; [|exact Hin].
    now apply leb_of_not_ltb.
Qed.

End WiderOrder.

Section SameTicks.
Context {F : Type} {N : Num F}.

Lemma major_elements (ticks ticks' : list (Tick.t F)) :
  (forall t, In t ticks <-> In t ticks') ->
  forall t, In t (major ticks) <-> In t (major ticks').
Proof.
  intros Hsame t. rewrite !In_major, (Hsame t). reflexivity.
Qed.

Lemma nonempty_elements (A : Type) (l l' : list A) :
  (forall x, In x l <-> In x l') -> nonempty l = nonempty l'.
Proof.
  intros Hsame. destruct l as [|x l]; destruct l' as [|x' l']; try reflexivity.
  - destruct (proj2 (Hsame x') (or_introl eq_refl)).
  - destruct (proj1 (Hsame x) (or_introl eq_refl)).
Qed.

End SameTicks.

(** X10: [labelHeight] and [labelWidth] depend only on which ticks the
    list holds, not on their order or on repetitions: two lists with the
    same ticks give the same label height and the same label width. *)
Theorem labelHeight_labelWidth_ignore_the_order_of_ticks :
  forall (tick : TickMarks.t float) (ticks ticks' : list (Tick.t float)),
    (forall t : Tick.t float, In t ticks <-> In t ticks') ->
    TickMarks.labelHeight tick ticks = TickMarks.labelHeight tick ticks'
    /\ TickMarks.labelWidth tick ticks = TickMarks.labelWidth tick ticks'.
Proof.
  intros tick ticks ticks' Hsame. split.
  - rewrite (labelHeight_major tick ticks), (labelHeight_major tick ticks').
    now rewrite (nonempty_elements _ _ _ (major_elements _ _ Hsame)).
  - unfold TickMarks.labelWidth. cbv zeta. rewrite !fold_widen_wider.
    f_equal. apply fold_wider_elements.
    intros w. rewrite !in_map_iff.
    split; intros (t & Hw & Hin); exists t; (split; [exact Hw|]);
      now apply (major_elements _ _ Hsame).
Qed.

(** X10 on three ticks and the same ticks in the reverse order. *)
Lemma labelHeight_labelWidth_ignore_the_order_of_ticks_witness :
  TickMarks.labelHeight (sampleTickMarks (ConstantTicks.marker [])) sampleTicks3
  = TickMarks.labelHeight (sampleTickMarks (ConstantTicks.marker [])) (rev sampleTicks3)
  /\ TickMarks.labelWidth (sampleTickMarks (ConstantTicks.marker [])) sampleTicks3
     = TickMarks.labelWidth (sampleTickMarks (ConstantTicks.marker [])) (rev sampleTicks3).
Proof.
  apply (labelHeight_labelWidth_ignore_the_order_of_ticks
           (sampleTickMarks (ConstantTicks.marker [])) sampleTicks3 (rev sampleTicks3)).
  intros t. apply in_rev.
Defined.

Section DefaultMarker.
Context {F : Type} {N : Num F}.
Local Open Scope num_scope.

Lemma eqb_nonempty (s : string) : s <> "" -> String.eqb s "" = false.
Proof. apply String.eqb_neq. Qed.

(** The marks of an axis that carries the default marker. *)
Lemma marks_of_default (Sprintf_g : F -> string) (a : Axis.t F) :
  TickMarks.TickMarker (Axis.Ticks a) = DefaultTicks.marker Sprintf_g ->
  marks_of a = DefaultTicks.Marks Sprintf_g (Axis.Min a) (Axis.Max a).
Proof.
  intros H. unfold marks_of, TickMarks.Marks. now rewrite H.
Qed.

(** Without a major tick the label width is the quotient of zero. *)
Lemma labelWidth_no_major (tick : TickMarks.t F) (ticks : list (Tick.t F)) :
  major ticks = [] -> TickMarks.labelWidth tick ticks = lit 0 / PtInch.
Proof.
  intros H. unfold TickMarks.labelWidth. cbv zeta.
  now rewrite fold_widen_major, H.
Qed.

End DefaultMarker.

(** X11: for an axis that carries the default tick marker, and given that
    [%g] never prints the empty string, [height()] does not depend on
    [Min] and [Max]: it is the sum of the label font's height in inches
    (when the label is not empty), the tick length plus the ascent of the
    tick label font in inches, half the line width and the padding.
    [drawHoriz] then draws the axis label (when not empty) and the three
    labels [%g] of [Min], of [Min + (Max - Min)/2] and of [Max]. *)
Theorem height_with_default_ticks_ignores_the_range :
  forall (F : Type) (N : Num F) (Sprintf_g : F -> string) (a : Axis.t F),
    (forall x : F, Sprintf_g x <> "") ->
    TickMarks.TickMarker (Axis.Ticks a) = DefaultTicks.marker Sprintf_g ->
    Axis.height a
    = sum_of (term_if (has_label a) (FontExtents.Height (Axis.labelExtents a) / PtInch)%num
              ++ [ (TickMarks.Length (Axis.Ticks a)
                    + FontExtents.Ascent
                        (Font.Extents (TextStyle.Font (TickMarks.LabelStyle (Axis.Ticks a))))
                      / PtInch)%num;
                   (LineStyle.Width (Axis.AxisStyle a) / lit 2)%num;
                   Axis.Padding a ])
    /\ forall da : DrawArea.t F,
         drawn_strings (calls_of (Axis.drawHoriz a da))
         = ((if has_label a then [Axis.Label a] else [])
            ++ [ Sprintf_g (Axis.Min a);
                 Sprintf_g (Axis.Min a + (Axis.Max a - Axis.Min a) / lit 2)%num;
                 Sprintf_g (Axis.Max a) ])%list.
Proof.
  intros F N g a Hg Hmarker.
  pose proof (marks_of_default g a Hmarker) as Hmarks.
  split.
  - rewrite height_sum. unfold height_terms. rewrite Hmarks.
    unfold DefaultTicks.Marks. cbn [nonempty term_if TickMarks.labelHeight].
    unfold Tick.minor at 1. cbn [Tick.Label].
    rewrite (eqb_nonempty _ (Hg (Axis.Min a))). reflexivity.
  - intros da. rewrite drawHoriz_calls, horiz_calls_strings, Hmarks.
    unfold DefaultTicks.Marks, major, labels, Tick.minor. cbn [filter Tick.Label].
    rewrite !(eqb_nonempty _ (Hg _)). reflexivity.
Qed.

(** X11 on the axis of the scenario, in [float64]. *)
Lemma height_with_default_ticks_ignores_the_range_witness :
  Axis.height axisX = (0 + 12 / 72 + (1 / 10 + 7.5 / 72) + 1 / 64 / 2 + 1 / 8)%float
  /\ drawn_strings (calls_of (Axis.drawHoriz axisX page)) = ["X"; "0"; "5"; "10"].
Proof.
  destruct (height_with_default_ticks_ignores_the_range float float64 fmt_g_small axisX
              fmt_g_small_nonempty eq_refl) as [Hheight Hdraws].
  split.
  - exact Hheight.
  - exact (Hdraws page).
Defined.

(** X12: when no tick of the axis is major (there is none, or all are
    minor), [labelWidth] is 0/72 = 0 and [width()] reserves no label
    column and no space: it is the sum of the label font's ascent in
    inches (when the label is not empty), the tick length (when there are
    ticks), half the line width and the padding; [drawVert] and
    [drawHoriz] draw no text but the axis label.  Conversely, [width()]
    reserves the label column ([labelWidth > 0]) only if the label of
    some major tick measures more than 0. *)
Theorem width_without_major_ticks :
  forall a : Axis.t float,
    (major (marks_of a) = [] ->
     Axis.width a
     = sum_of (term_if (has_label a) (FontExtents.Ascent (Axis.labelExtents a) / PtInch)%float
               ++ term_if (nonempty (marks_of a)) (TickMarks.Length (Axis.Ticks a))
               ++ [ (LineStyle.Width (Axis.AxisStyle a) / 2)%float; Axis.Padding a ])
     /\ forall da : DrawArea.t float,
          drawn_strings (calls_of (Axis.drawVert a da))
          = (if has_label a then [Axis.Label a] else [])
          /\ drawn_strings (calls_of (Axis.drawHoriz a da))
             = (if has_label a then [Axis.Label a] else []))
    /\ ((0 <? TickMarks.labelWidth (Axis.Ticks a) (marks_of a))%float = true ->
        exists t : Tick.t float,
          In t (marks_of a) /\ Tick.minor t = false
          /\ (0 <? Font.Width (TextStyle.Font (TickMarks.LabelStyle (Axis.Ticks a)))
                     (Tick.Label t))%float = true).
Proof.
  intros a. split.
  - intros Hnone. split.
    + rewrite width_sum. unfold width_terms, width_tail.
      rewrite (labelWidth_no_major _ _ Hnone).
      replace (lit 0 / PtInch >? lit 0)%num with false by reflexivity.
      cbn [terms_if app]. now destruct (nonempty (marks_of a)).
    + intros da.
      rewrite drawVert_calls, vert_calls_strings, drawHoriz_calls, horiz_calls_strings, Hnone.
      cbn [map labels]. now rewrite app_nil_r.
  - unfold TickMarks.labelWidth. cbv zeta. rewrite fold_widen_wider.
    destruct (fold_wider_above (map (label_points (Axis.Ticks a)) (major (marks_of a))) (lit 0))
      as [H|[Hin Hpos]].
    + rewrite H. intros Hc. vm_compute in Hc. discriminate.
    + intros _. apply in_map_iff in Hin. destruct Hin as (t & Hw & Hin).
      apply In_major in Hin. destruct Hin as [Hin Hmajor].
      exists t. split; [exact Hin|]. split; [exact Hmajor|].
      unfold label_points in Hw. rewrite Hw. exact Hpos.
Qed.

(** X12 on an axis labelled "X" with two minor ticks. *)
Lemma width_without_major_ticks_witness :
  Axis.width minorAxis = (0 + 9 / 72 + 1 / 10 + 1 / 64 / 2 + 1 / 8)%float
  /\ drawn_strings (calls_of (Axis.drawVert minorAxis page)) = ["X"].
Proof.
  destruct (proj1 (width_without_major_ticks minorAxis) eq_refl) as [Hwidth Hdraws].
  split.
  - exact Hwidth.
  - exact (proj1 (Hdraws page)).
Defined.

(** * Where the text goes *)

(** X13: the text calls of [drawHoriz] are the axis label (when not
    empty), centred ([xalign = -0.5]) at [da.Center().X] on the ordinate
    [da.Min.Y - Descent/PtInch*DPI], and then one call per major tick,
    centred at the abscissa [X(da, t.Value)] of its tick mark, all on the
    ordinate the cursor has after the axis label.  The text calls of
    [drawVert] are the axis label (when not empty) at
    [(da.Center().Y, -(da.Min.X + Ascent/PtInch*DPI))], and then one call
    per major tick, right-aligned ([xalign = -1]) and vertically centred
    ([yalign = -0.5]) at the ordinate [Y(da, t.Value)] of its tick mark,
    all on the abscissa the cursor has after the axis label and the tick
    label column. *)
Theorem tick_labels_are_anchored_at_their_ticks :
  forall (F : Type) (N : Num F) (a : Axis.t F) (da : DrawArea.t F),
    let y1 := advance (Point.Y (DrawArea.Min da)) (horiz_label_advances a da) in
    let x2 := advance (advance (Point.X (DrawArea.Min da)) (vert_label_advances a da))
                (vert_tick_label_advances a da) in
    filter is_text (calls_of (Axis.drawHoriz a da))
    = ((if has_label a
        then [ DrawArea.Text (Point.X (DrawArea.Center da))
                 (Point.Y (DrawArea.Min da)
                  + - (FontExtents.Descent (Axis.labelExtents a) / PtInch * DrawArea.DPI da))%num
                 (- (lit 1 / lit 2))%num (lit 0) (Axis.Label a) ]
        else [])
       ++ map (fun t => DrawArea.Text (Axis.X a da (Tick.Value t)) y1
                          (- (lit 1 / lit 2))%num (lit 0) (Tick.Label t))
              (major (marks_of a)))%list
    /\ filter is_text (calls_of (Axis.drawVert a da))
       = ((if has_label a
           then [ DrawArea.Text (Point.Y (DrawArea.Center da))
                    (- (Point.X (DrawArea.Min da)
                        + FontExtents.Ascent (Axis.labelExtents a) / PtInch * DrawArea.DPI da))%num
                    (- (lit 1 / lit 2))%num (lit 0) (Axis.Label a) ]
           else [])
          ++ map (fun t => DrawArea.Text x2 (Axis.Y a da (Tick.Value t))
                             (lit (-1)) (- (lit 1 / lit 2))%num (Tick.Label t ++ " ")%string)
                 (major (marks_of a)))%list.
Proof.
  intros F N a da y1 x2. subst y1 x2. split.
  - rewrite drawHoriz_calls. unfold horiz_calls. cbv zeta.
    rewrite !filter_app, horiz_tick_calls_texts. cbn [filter is_text].
    rewrite app_nil_r. f_equal.
    unfold horiz_label_calls. now destruct (has_label a).
  - rewrite drawVert_calls. unfold vert_calls. cbv zeta.
    rewrite !filter_app, vert_tick_calls_texts. cbn [filter is_text].
    rewrite app_nil_r. f_equal.
    unfold vert_label_calls. now destruct (has_label a).
Qed.
